(** * trains: the metrics reporter and the request dispatcher

    A shallow embedding of

      - [trains/backend_interface/base.py]             (class [InterfaceBase])
      - [trains/backend_interface/metrics/reporter.py] (class [Reporter])

    Python objects become records, methods become functions in a small
    state-and-exception monad whose state survives a raised exception
    (as the attributes of a Python object do), and the collaborators the
    two files import but do not define (the transport session, the
    Metrics manager, the plotly chart builders, the event classes) are
    interfaces. *)

From Stdlib Require Import ZArith List String Ascii Bool Lia.
Import ListNotations.

Local Open Scope string_scope.
Local Open Scope Z_scope.
Local Set Warnings "-register-all".

(* ===================================================================== *)
(** * Python values and the built-ins the two files call                 *)
(* ===================================================================== *)

Module Py.

(** The plain built-in values that reach the two modules.  A float is
    kept as a decimal literal [mantissa * 10 ^ exponent]; only its zero
    test is ever looked at. *)
Inductive value : Type :=
| VNone
| VBool (b : bool)
| VInt (n : Z)
| VFloat (mantissa exponent : Z)
| VStr (s : string)
| VList (items : list value)
| VDict (items : list (string * value)).

(** [bool(v)], the test behind [if v], [not v], [a or b]. *)
Definition truthy (v : value) : bool :=
  match v with
  | VNone => false
  | VBool b => b
  | VInt n => negb (n =? 0)
  | VFloat m _ => negb (m =? 0)
  | VStr s => negb (s =? EmptyString)%string
  | VList l => match l with [] => false | _ => true end
  | VDict d => match d with [] => false | _ => true end
  end.

(** [a or b] *)
Definition py_or (a b : value) : value := if truthy a then a else b.

(** [v is not None] *)
Definition is_not_none {A : Type} (o : option A) : bool :=
  match o with Some _ => true | None => false end.

(** [isinstance(v, collections.Iterable)] *)
Definition is_iterable (v : value) : bool :=
  match v with
  | VStr _ | VList _ | VDict _ => true
  | VNone | VBool _ | VInt _ | VFloat _ _ => false
  end.

(** [isinstance(v, dict)], [isinstance(v, six.string_types)],
    [isinstance(v, list)] *)
Definition is_dict (v : value) : bool :=
  match v with VDict _ => true | _ => false end.
Definition is_str (v : value) : bool :=
  match v with VStr _ => true | _ => false end.
Definition is_list (v : value) : bool :=
  match v with VList _ => true | _ => false end.

(** ** [str] methods *)

Definition mem_char (c : ascii) (chars : string) : bool :=
  existsb (Ascii.eqb c) (list_ascii_of_string chars).

(** [s.rstrip(chars)]: drop the longest suffix made of characters of
    [chars]. *)
Fixpoint str_rstrip (chars s : string) : string :=
  match s with
  | EmptyString => EmptyString
  | String c s' =>
      let r := str_rstrip chars s' in
      if ((r =? EmptyString)%string && mem_char c chars)%bool then EmptyString
      else String c r
  end.

(** [s.replace(old, new)] scans left to right and replaces the
    non-overlapping occurrences of [old]; [skip] counts the characters of
    a matched occurrence still to be passed over. *)
Fixpoint replace_from (old new : string) (skip : nat) (s : string) : string :=
  match s with
  | EmptyString => EmptyString
  | String c s' =>
      match skip with
      | S k => replace_from old new k s'
      | O =>
          if prefix old s
          then new ++ replace_from old new (String.length old - 1) s'
          else String c (replace_from old new 0 s')
      end
  end.

(** With an empty [old], Python puts [new] before every character and at
    the end. *)
Fixpoint replace_empty (new s : string) : string :=
  match s with
  | EmptyString => new
  | String c s' => new ++ String c (replace_empty new s')
  end.

Definition str_replace (old new s : string) : string :=
  if (old =? EmptyString)%string then replace_empty new s
  else replace_from old new 0 s.

(** [sep.join(parts)] on strings is [String.concat sep parts]. *)
Definition str_join (sep : string) (parts : list string) : string :=
  String.concat sep parts.

End Py.
Export Py.

(* ===================================================================== *)
(** * Responses, requests, exceptions                                    *)
(* ===================================================================== *)

(** [res.meta]: the result code and the text [str(res.meta)] prints. *)
Record Meta : Type := mkMeta {
  result_code : Z;
  meta_str : string
}.

Record Response : Type := mkResponse {
  meta : Meta;
  response_data : string
}.

(** A request: whether it is a [BatchRequest], what [str(req)] prints and
    the items of [req.to_dict()], already printed. *)
Record Request : Type := mkRequest {
  is_batch : bool;
  req_str : string;
  to_dict : list (string * string)
}.

(** The exceptions of the two modules.  [Foreign] is whatever else a
    collaborator raises. *)
Inductive exn : Type :=
| ValueError (msg : string)
| AttributeError (attr : string)
| TypeError (msg : string)
| IndexError (msg : string)
| SendError (res : Response) (msg : string)
| Foreign (name : string).

(** The outcome of a call: a value or a raised exception. *)
Inductive Res (A : Type) : Type :=
| Ok (a : A)
| Raise (e : exn).
Arguments Ok {A} a.
Arguments Raise {A} e.

(* ===================================================================== *)
(** * base.py: the request dispatcher                                    *)
(* ===================================================================== *)

Module InterfaceBase.

(** What one call of [session.send(req, async_enable=...)] does: it
    returns a response, raises a [requests.exceptions.BaseHTTPError], or
    raises something else. *)
Inductive Outcome : Type :=
| Responds (res : Response)
| RaisesBaseHTTPError (e : string)
| RaisesOther (e : exn).

(** The transport session, as the outcomes of its successive [send]
    calls. *)
Definition Session : Type := list Outcome.

Inductive LogRecord : Type :=
| LogError (msg : string)
| LogInfo (msg : string).

(** What the dispatcher has done so far: the requests it issued (with
    their [async_enable] flag) and the records it logged, oldest first. *)
Record Wire : Type := mkWire {
  sent : list (Request * bool);
  logged : list LogRecord
}.

Definition wire0 : Wire := mkWire [] [].

Definition issue (req : Request) (async_enable : bool) (w : Wire) : Wire :=
  mkWire (sent w ++ [(req, async_enable)])%list (logged w).

Definition log_to (r : LogRecord) (w : Wire) : Wire :=
  mkWire (sent w) (logged w ++ [r])%list.

(** [if log: log.error(msg)] / [if log: log.info(msg)] *)
Definition log_if (log : bool) (r : LogRecord) (w : Wire) : Wire :=
  if log then log_to r w else w.

(** How [_send] ends: it returns, it raises, or it is about to issue one
    more request than the session was scripted for. *)
Inductive SendResult : Type :=
| Returned (res : Response)
| Raised (e : exn)
| Resending.

(** ['Action failed %s' % res.meta], and for a request that is not a
    batch
    ['Action failed %s (%s)' % (res.meta, ', '.join('%s=%s' % p for p in req.to_dict().items()))] *)
Definition error_msg (req : Request) (res : Response) : string :=
  if is_batch req
  then "Action failed " ++ meta_str (meta res)
  else "Action failed " ++ meta_str (meta res) ++ " ("
       ++ str_join ", " (map (fun p => fst p ++ "=" ++ snd p) (to_dict req))
       ++ ")".

(** [res.meta.result_code in (200, 202)] *)
Definition in_200_202 (res : Response) : bool :=
  (result_code (meta res) =? 200) || (result_code (meta res) =? 202).

(** [InterfaceBase._send]: the [while True] loop, one iteration per
    scripted outcome of the session.  [log] tells whether a logger was
    passed ([log=None] is [false]). *)
Fixpoint _send (session : Session) (req : Request)
    (ignore_errors raise_on_errors log async_enable : bool) (w : Wire)
    : SendResult * Wire :=
  match session with
  | [] => (Resending, w)
  | outcome :: session' =>
      let w := issue req async_enable w in
      match outcome with
      | Responds res =>
          if (in_200_202 res || ignore_errors)%bool then (Returned res, w)
          else
            let msg := error_msg req res in
            let w := log_if log (LogError msg) w in
            if result_code (meta res) <=? 500 then
              (* Proper backend error/bad status code - raise or return *)
              if raise_on_errors then (Raised (SendError res msg), w)
              else (Returned res, w)
            else
              (* Infrastructure error *)
              let w := log_if log (LogInfo ("retrying request " ++ req_str req)) w in
              _send session' req ignore_errors raise_on_errors log async_enable w
      | RaisesBaseHTTPError e =>
          if log then
            let w := log_to (LogError ("failed sending " ++ req_str req ++ ": " ++ e)) w in
            (* Infrastructure error *)
            let w := log_to (LogInfo ("retrying request " ++ req_str req)) w in
            _send session' req ignore_errors raise_on_errors log async_enable w
          else
            (* [log.error] on [None], inside the handler *)
            (Raised (AttributeError "error"), w)
      | RaisesOther e => (Raised e, w)
      end
  end.

(** [InterfaceBase.send]: [_send] on the object's own session and
    logger ([__init__] always gives it one). *)
Definition send (session : Session) (req : Request)
    (ignore_errors raise_on_errors async_enable : bool) (w : Wire)
    : SendResult * Wire :=
  _send session req ignore_errors raise_on_errors true async_enable w.

(** The number of requests the dispatcher issued. *)
Definition requests_issued (w : Wire) : nat := List.length (sent w).

(** The error records among what was logged. *)
Definition errors_logged (w : Wire) : list string :=
  flat_map (fun r => match r with LogError m => [m] | LogInfo _ => [] end)
           (logged w).

End InterfaceBase.

(* ===================================================================== *)
(** * reporter.py: the collaborators                                     *)
(* ===================================================================== *)

(** A [numpy.ndarray]; its contents are never looked at, only
    [matrix.shape]. *)
Record ndarray : Type := mkArray { shape : list Z }.

(** The event classes of [.events], by the keyword arguments the
    reporter builds them with. *)
Inductive Event : Type :=
| ScalarEvent (metric variant value : value) (iter : Z)
| VectorEvent (metric variant values : value) (iter : Z)
| PlotEvent (metric variant plot_str : value) (iter : Z)
| ImageEventNoUpload (metric variant : value) (iter : Z) (src : value)
| ImageEvent (image_data : option ndarray) (upload_uri : value)
    (local_image_path : option string) (metric variant : value) (iter : Z)
    (image_file_history_size : option Z).

(** What [Metrics.write_events] hands back: the completed call, a
    pending handle of an asynchronous send, or nothing. *)
Inductive WriteResult : Type :=
| CallResult (res : Response)
| AsyncResult (handle : nat)
| NoResult.

(** The Metrics manager, as far as the reporter uses it.  [write_events]
    may return or raise, and may change the manager. *)
Class MetricsAPI (Metrics : Type) : Type := {
  storage_key_prefix : Metrics -> value;
  write_events :
    Metrics -> list Event -> bool -> value -> Res WriteResult * Metrics
}.

(** A chart description, the [dict] the plotly builders return. *)
Definition Chart : Type := list (string * value).

(** [data] of [report_3d_scatter]: one array or a list of arrays. *)
Inductive ScatterData : Type :=
| OneArray (a : ndarray)
| ArrayList (l : list ndarray).

(** The functions of [utilities.plotly_reporter], [json.dumps] and
    [ImageEvent.get_target_full_upload_uri], with the keyword arguments
    in the order the reporter passes them. *)
Class Plotly : Type := {
  create_2d_histogram_plot :
    forall (np_row_wise : ndarray) (title labels series xlabels comment : value),
      Res Chart;
  create_line_plot :
    forall (title series xtitle ytitle mode reverse_xaxis comment : value),
      Res Chart;
  create_2d_scatter_series :
    forall (np_row_wise : ndarray)
           (title series_name mode xtitle ytitle labels comment : value),
      Res Chart;
  plotly_scatter3d_layout_dict :
    forall (title xaxis_title yaxis_title zaxis_title comment : value),
      Res Chart;
  create_3d_scatter_series :
    forall (np_row_wise : ndarray) (title series_name labels : value)
           (plotly_obj : Chart)
           (mode line_width marker_size color fill_axis : value),
      Res Chart;
  create_value_matrix :
    forall (np_value_matrix : ndarray)
           (title xlabels ylabels series comment : value),
      Res Chart;
  create_3d_surface :
    forall (np_value_matrix : ndarray)
           (title xlabels ylabels series xtitle ytitle ztitle camera comment : value),
      Res Chart;
  create_image_plot :
    forall (image_src title : value) (width height : Z), Res Chart;
  json_dumps : Chart -> string;
  get_target_full_upload_uri :
    Event -> value -> value -> Res (value * value)
}.

(* ===================================================================== *)
(** * reporter.py: class [Reporter]                                      *)
(* ===================================================================== *)

Module Reporter.

(** The calls a reporter makes, in the order it makes them.  The log is
    not an attribute of the Python object: it records which methods ran,
    so that "a write is invoked" and "flush is called" can be stated. *)
Inductive Call : Type :=
| Call_report (ev : Event)
| Call_write
| Call_flush
| Call_write_events (events : list Event) (async_enable : bool)
    (storage_uri : value)
| Call_add_async_result (res : WriteResult)
| Call_wait_for_results.

Section WithCollaborators.

Context {Metrics : Type} {metrics_api : MetricsAPI Metrics} {plotly : Plotly}.

(** The attributes [__init__] sets, the pending results of
    [AsyncManagerMixin], and the call log.  ([_bucket_config], set to
    [None] and never read in this class, and the session and logger of
    [InterfaceBase.__init__] are left out.) *)
Record t : Type := mk {
  _metrics : Metrics;
  _flush_threshold : Z;
  _events : list Event;
  _storage_uri : value;
  _async_enable : bool;
  _async_results : list WriteResult;
  calls : list Call
}.

Definition with_metrics (m : Metrics) (r : t) : t :=
  mk m (_flush_threshold r) (_events r) (_storage_uri r) (_async_enable r)
     (_async_results r) (calls r).
Definition with_flush_threshold (n : Z) (r : t) : t :=
  mk (_metrics r) n (_events r) (_storage_uri r) (_async_enable r)
     (_async_results r) (calls r).
Definition with_events (evs : list Event) (r : t) : t :=
  mk (_metrics r) (_flush_threshold r) evs (_storage_uri r) (_async_enable r)
     (_async_results r) (calls r).
Definition with_storage_uri (v : value) (r : t) : t :=
  mk (_metrics r) (_flush_threshold r) (_events r) v (_async_enable r)
     (_async_results r) (calls r).
Definition with_async_enable (b : bool) (r : t) : t :=
  mk (_metrics r) (_flush_threshold r) (_events r) (_storage_uri r) b
     (_async_results r) (calls r).
Definition with_async_results (l : list WriteResult) (r : t) : t :=
  mk (_metrics r) (_flush_threshold r) (_events r) (_storage_uri r)
     (_async_enable r) l (calls r).
Definition with_call (c : Call) (r : t) : t :=
  mk (_metrics r) (_flush_threshold r) (_events r) (_storage_uri r)
     (_async_enable r) (_async_results r) (calls r ++ [c])%list.

(** ** Methods: state and exceptions

    A method takes [self] and gives a result and [self] as the method
    left it; an exception does not undo assignments already made. *)
Definition M (A : Type) : Type := t -> Res A * t.

Definition ret {A : Type} (a : A) : M A := fun r => (Ok a, r).

Definition bind {A B : Type} (c : M A) (k : A -> M B) : M B :=
  fun r =>
    match c r with
    | (Ok a, r') => k a r'
    | (Raise e, r') => (Raise e, r')
    end.

Definition raise {A : Type} (e : exn) : M A := fun r => (Raise e, r).

(** A call that does not touch [self]. *)
Definition lift {A : Type} (x : Res A) : M A := fun r => (x, r).

Definition self : M t := fun r => (Ok r, r).

Definition update (f : t -> t) : M unit := fun r => (Ok tt, f r).

Definition called (c : Call) : M unit := update (with_call c).

Notation "x <- c ;; k" := (bind c (fun x => k))
  (at level 61, c at next level, right associativity).
Notation "c ;; k" := (bind c (fun _ => k))
  (at level 61, right associativity).

(** ** AsyncManagerMixin *)

(** Modelled from the spec: [AsyncManagerMixin._add_async_result] of
    [utilities/async_manager.py], which is not among the sources.  Each
    dispatched asynchronous send yields a handle and the tracker
    accumulates the handles until it is drained. *)
Definition _add_async_result (res : WriteResult) : M unit :=
  called (Call_add_async_result res) ;;
  update (fun r => with_async_results (_async_results r ++ [res])%list r).

(** Modelled from the spec: [AsyncManagerMixin.get_num_results], a pure
    count of the tracked handles. *)
Definition get_num_results : M Z :=
  r <- self ;; ret (Z.of_nat (List.length (_async_results r))).

(** Modelled from the spec: [AsyncManagerMixin.wait_for_results], which
    blocks until every tracked handle resolves and then clears the
    tracked set. *)
Definition wait_for_results : M unit :=
  called Call_wait_for_results ;;
  update (with_async_results []).

(** ** Construction and properties *)

(** [Reporter.__init__(metrics, flush_threshold=10, async_enable=False)] *)
Definition __init__ (metrics : Metrics) (flush_threshold : Z)
    (async_enable : bool) : t :=
  mk metrics flush_threshold [] VNone async_enable [] [].

Definition default_flush_threshold : Z := 10.
Definition default_async_enable : bool := false.

(** A Python [property(fget, fset)]: reading one without a getter, or
    assigning to one without a setter, raises [AttributeError]. *)
Record property (A B : Type) : Type := mkProperty {
  fget : option (M A);
  fset : option (B -> M unit)
}.
Arguments fget {A B} p.
Arguments fset {A B} p.

Definition getattr {A B : Type} (p : property A B) : M A :=
  match fget p with
  | Some g => g
  | None => raise (AttributeError "unreadable attribute")
  end.

Definition setattr {A B : Type} (p : property A B) (v : B) : M unit :=
  match fset p with
  | Some f => f v
  | None => raise (AttributeError "can't set attribute")
  end.

(** The items of a [join] must all be strings. *)
Fixpoint strings_of (l : list value) : Res (list string) :=
  match l with
  | [] => Ok []
  | VStr s :: l' =>
      match strings_of l' with
      | Ok ss => Ok (s :: ss)
      | Raise e => Raise e
      end
  | _ :: _ => Raise (TypeError "sequence item: expected str instance")
  end.

(** [Reporter._set_storage_uri]:
    [value = '/'.join(x for x in (value.rstrip('/'), self._metrics.storage_key_prefix) if x)] *)
Definition _set_storage_uri (v : value) : M unit :=
  r <- self ;;
  match v with
  | VStr s =>
      parts <- lift (strings_of
                 (filter truthy
                    [VStr (str_rstrip "/" s); storage_key_prefix (_metrics r)])) ;;
      update (with_storage_uri (VStr (str_join "/" parts)))
  | _ => raise (AttributeError "rstrip")
  end.

(** [storage_uri = property(None, _set_storage_uri)] *)
Definition storage_uri : property value value :=
  mkProperty _ _ None (Some _set_storage_uri).

(** [flush_threshold]: the getter returns [self._flush_threshold], the
    setter stores [max(0, value)]. *)
Definition flush_threshold : property Z Z :=
  mkProperty _ _
    (Some (r <- self ;; ret (_flush_threshold r)))
    (Some (fun v => update (with_flush_threshold (Z.max 0 v)))).

(** [async_enable]: the setter stores [bool(value)]. *)
Definition async_enable : property bool value :=
  mkProperty _ _
    (Some (r <- self ;; ret (_async_enable r)))
    (Some (fun v => update (with_async_enable (truthy v)))).

(** ** Buffering and flushing *)

(** [self._metrics.write_events(events, async_enable=..., storage_uri=...)] *)
Definition metrics_write_events (events : list Event) (async : bool)
    (uri : value) : M WriteResult :=
  called (Call_write_events events async uri) ;;
  (fun r =>
     let (res, m) := write_events (_metrics r) events async uri in
     (res, with_metrics m r)).

(** [Reporter._write] *)
Definition _write : M unit :=
  called Call_write ;;
  r <- self ;;
  match _events r with
  | [] => ret tt
  | _ :: _ =>
      res <- metrics_write_events (_events r) (_async_enable r) (_storage_uri r) ;;
      r <- self ;;
      (if _async_enable r then _add_async_result res else ret tt) ;;
      update (with_events [])
  end.

(** [Reporter._report] *)
Definition _report (ev : Event) : M unit :=
  called (Call_report ev) ;;
  update (fun r => with_events (_events r ++ [ev])%list r) ;;
  r <- self ;;
  if Z.of_nat (List.length (_events r)) >=? _flush_threshold r
  then _write
  else ret tt.

(** [Reporter.flush] *)
Definition flush : M unit :=
  called Call_flush ;;
  _write ;;
  n <- get_num_results ;;
  if n >? 0 then wait_for_results else ret tt.

(** [Reporter._normalize_name] *)
Definition _normalize_name (name : value) : Res value :=
  if negb (truthy name) then Ok name
  else
    match name with
    | VStr s => Ok (VStr (str_replace "." "/" (str_replace "$" "/" s)))
    | _ => Raise (AttributeError "replace")
    end.

(** [Reporter.__exit__]: no flush when an exception was raised in the
    scope.  [exc_type] is the exception's class (by name), [None] on a
    normal exit. *)
Definition __exit__ (exc_type : option string) (exc_val : option exn)
    (exc_tb : option string) : M unit :=
  if negb (is_not_none exc_type) then flush else ret tt.

(** ** The reporting entry points *)

(** [Reporter.report_scalar] *)
Definition report_scalar (title series value : value) (iter : Z) : M unit :=
  metric <- lift (_normalize_name title) ;;
  variant <- lift (_normalize_name series) ;;
  _report (ScalarEvent metric variant value iter).

(** [Reporter.report_vector] *)
Definition report_vector (title series values : value) (iter : Z) : M unit :=
  if negb (is_iterable values)
  then raise (ValueError "values: expected an iterable")
  else
    metric <- lift (_normalize_name title) ;;
    variant <- lift (_normalize_name series) ;;
    _report (VectorEvent metric variant values iter).

(** [Reporter.report_plot]: a [dict] is dumped to JSON, a string is kept,
    anything else is refused. *)
Definition report_plot (title series plot : value) (iter : Z) : M unit :=
  plot <- match plot with
          | VDict d => ret (VStr (json_dumps d))
          | VStr _ => ret plot
          | _ => raise (ValueError "Plot should be a string or a dict")
          end ;;
  metric <- lift (_normalize_name title) ;;
  variant <- lift (_normalize_name series) ;;
  _report (PlotEvent metric variant plot iter).

(** [Reporter.report_image] *)
Definition report_image (title series src : value) (iter : Z) : M unit :=
  metric <- lift (_normalize_name title) ;;
  variant <- lift (_normalize_name series) ;;
  _report (ImageEventNoUpload metric variant iter src).

(** [len([x for x in (path, matrix) if x is not None])] *)
Definition count_not_none (path : option string) (matrix : option ndarray)
    : Z :=
  (if is_not_none path then 1 else 0) + (if is_not_none matrix then 1 else 0).

(** [Reporter.report_image_and_upload] *)
Definition report_image_and_upload (title series : value) (iter : Z)
    (path : option string) (matrix : option ndarray) (upload_uri : value)
    (max_image_history : option Z) : M unit :=
  r <- self ;;
  if (negb (truthy (_storage_uri r)) && negb (truthy upload_uri))%bool
  then raise (ValueError "Upload configuration is required (use setup_upload())")
  else if negb (count_not_none path matrix =? 1)
  then raise (ValueError "Expected only one of [filename, matrix]")
  else
    metric <- lift (_normalize_name title) ;;
    variant <- lift (_normalize_name series) ;;
    _report (ImageEvent matrix upload_uri path metric variant iter
               max_image_history).

(** [Reporter.report_histogram] *)
Definition report_histogram (title series : value) (histogram : ndarray)
    (iter : Z) (labels xlabels comment : value) : M unit :=
  plotly_dict <- lift (create_2d_histogram_plot histogram title labels series
                         xlabels comment) ;;
  title' <- lift (_normalize_name title) ;;
  series' <- lift (_normalize_name series) ;;
  report_plot title' series' (VDict plotly_dict) iter.

(** [Reporter.report_line_plot] *)
Definition report_line_plot (title series : value) (iter : Z)
    (xtitle ytitle mode reverse_xaxis comment : value) : M unit :=
  plotly_dict <- lift (create_line_plot title series xtitle ytitle mode
                         reverse_xaxis comment) ;;
  title' <- lift (_normalize_name title) ;;
  report_plot title' (VStr EmptyString) (VDict plotly_dict) iter.

(** [Reporter.report_2d_scatter] *)
Definition report_2d_scatter (title series : value) (data : ndarray)
    (iter : Z) (mode xtitle ytitle labels comment : value) : M unit :=
  plotly_dict <- lift (create_2d_scatter_series data title series mode xtitle
                         ytitle labels comment) ;;
  title' <- lift (_normalize_name title) ;;
  series' <- lift (_normalize_name series) ;;
  report_plot title' series' (VDict plotly_dict) iter.

(** [labels[i]] with [IndexError] caught and answered by [labels[-1]],
    for a list that is not empty. *)
Definition item_or_last (l : list value) (i : nat) : value :=
  match nth_error l i with
  | Some v => v
  | None => last l VNone
  end.

(** [get_labels(i)], the closure of [report_3d_scatter] *)
Definition get_labels (labels : value) (i : nat) : value :=
  match labels with
  | VList l =>
      if truthy labels then
        let item := item_or_last l i in
        if is_list item then item else labels
      else labels
  | _ => labels
  end.

(** [series[i] if isinstance(series, list) else None] *)
Definition series_name_at (series : value) (i : nat) : Res value :=
  match series with
  | VList l =>
      match nth_error l i with
      | Some v => Ok v
      | None => Raise (IndexError "list index out of range")
      end
  | _ => Ok VNone
  end.

(** The [for i, values in enumerate(data_series)] loop of
    [report_3d_scatter], from index [i] on. *)
Fixpoint scatter3d_series (title series labels mode line_width marker_size
    color fill : value) (i : nat) (data_series : list ndarray)
    (plotly_obj : Chart) : Res Chart :=
  match data_series with
  | [] => Ok plotly_obj
  | values :: rest =>
      match series_name_at series i with
      | Raise e => Raise e
      | Ok series_name =>
          match create_3d_scatter_series values title series_name
                  (get_labels labels i) plotly_obj mode line_width marker_size
                  color fill with
          | Raise e => Raise e
          | Ok plotly_obj' =>
              scatter3d_series title series labels mode line_width marker_size
                color fill (S i) rest plotly_obj'
          end
      end
  end.

(** [Reporter.report_3d_scatter] *)
Definition report_3d_scatter (title series : value) (data : ScatterData)
    (iter : Z)
    (labels mode color marker_size line_width xtitle ytitle ztitle fill
       comment : value) : M unit :=
  let data_series :=
    match data with ArrayList l => l | OneArray a => [a] end in
  plotly_obj <- lift (plotly_scatter3d_layout_dict title xtitle ytitle ztitle
                        comment) ;;
  plotly_obj <- lift (scatter3d_series title series labels mode line_width
                        marker_size color fill 0 data_series plotly_obj) ;;
  title' <- lift (_normalize_name title) ;;
  series' <- (if negb (is_list series) then lift (_normalize_name series)
              else ret VNone) ;;
  report_plot title' series' (VDict plotly_obj) iter.

(** [Reporter.report_value_matrix] *)
Definition report_value_matrix (title series : value) (data : ndarray)
    (iter : Z) (xlabels ylabels comment : value) : M unit :=
  plotly_dict <- lift (create_value_matrix data title xlabels ylabels series
                         comment) ;;
  title' <- lift (_normalize_name title) ;;
  series' <- lift (_normalize_name series) ;;
  report_plot title' series' (VDict plotly_dict) iter.

(** [a + b] where one side is known to be a string: the other must be
    one too. *)
Definition str_add (a b : value) : Res value :=
  match a, b with
  | VStr x, VStr y => Ok (VStr (x ++ y))
  | _, _ => Raise (TypeError "unsupported operand type(s) for +")
  end.

(** [title + '/' + series] *)
Definition title_slash_series (title series : value) : Res value :=
  match str_add title (VStr "/") with
  | Ok ts => str_add ts series
  | Raise e => Raise e
  end.

(** [Reporter.report_value_surface] *)
Definition report_value_surface (title series : value) (data : ndarray)
    (iter : Z)
    (xlabels ylabels xtitle ytitle ztitle camera comment : value) : M unit :=
  full_title <- lift (title_slash_series title series) ;;
  plotly_dict <- lift (create_3d_surface data full_title xlabels ylabels
                         series xtitle ytitle ztitle camera comment) ;;
  title' <- lift (_normalize_name title) ;;
  series' <- lift (_normalize_name series) ;;
  report_plot title' series' (VDict plotly_dict) iter.

(** [matrix.shape[i] if matrix is not None else dflt] *)
Definition shape_or (matrix : option ndarray) (i : nat) (dflt : Z) : Res Z :=
  match matrix with
  | Some a =>
      match nth_error (shape a) i with
      | Some n => Ok n
      | None => Raise (IndexError "tuple index out of range")
      end
  | None => Ok dflt
  end.

(** [Reporter.report_image_plot_and_upload]: the image event is
    reported, then a plot pointing at the uploaded image. *)
Definition report_image_plot_and_upload (title series : value) (iter : Z)
    (path : option string) (matrix : option ndarray) (upload_uri : value)
    (max_image_history : option Z) : M unit :=
  r <- self ;;
  if (negb (truthy upload_uri) && negb (truthy (_storage_uri r)))%bool
  then raise (ValueError "Upload configuration is required (use setup_upload())")
  else if negb (count_not_none path matrix =? 1)
  then raise (ValueError "Expected only one of [filename, matrix]")
  else
    metric <- lift (_normalize_name title) ;;
    variant <- lift (_normalize_name series) ;;
    let ev := ImageEvent matrix upload_uri path metric variant iter
                max_image_history in
    target <- lift (get_target_full_upload_uri ev
                      (py_or upload_uri (_storage_uri r))
                      (storage_key_prefix (_metrics r))) ;;
    let url := snd target in
    _report ev ;;
    full_title <- lift (title_slash_series title series) ;;
    width <- lift (shape_or matrix 1 640) ;;
    height <- lift (shape_or matrix 0 480) ;;
    plotly_dict <- lift (create_image_plot url full_title width height) ;;
    title' <- lift (_normalize_name title) ;;
    series' <- lift (_normalize_name series) ;;
    report_plot title' series' (VDict plotly_dict) iter.

(** ** The public interface, as data

    One constructor per public call, so that "every [report_*] call" and
    "every reachable state" can be quantified over. *)
Inductive Op : Type :=
| Report_scalar (title series value : value) (iter : Z)
| Report_vector (title series values : value) (iter : Z)
| Report_plot (title series plot : value) (iter : Z)
| Report_image (title series src : value) (iter : Z)
| Report_image_and_upload (title series : value) (iter : Z)
    (path : option string) (matrix : option ndarray) (upload_uri : value)
    (max_image_history : option Z)
| Report_histogram (title series : value) (histogram : ndarray) (iter : Z)
    (labels xlabels comment : value)
| Report_line_plot (title series : value) (iter : Z)
    (xtitle ytitle mode reverse_xaxis comment : value)
| Report_2d_scatter (title series : value) (data : ndarray) (iter : Z)
    (mode xtitle ytitle labels comment : value)
| Report_3d_scatter (title series : value) (data : ScatterData) (iter : Z)
    (labels mode color marker_size line_width xtitle ytitle ztitle fill
       comment : value)
| Report_value_matrix (title series : value) (data : ndarray) (iter : Z)
    (xlabels ylabels comment : value)
| Report_value_surface (title series : value) (data : ndarray) (iter : Z)
    (xlabels ylabels xtitle ytitle ztitle camera comment : value)
| Report_image_plot_and_upload (title series : value) (iter : Z)
    (path : option string) (matrix : option ndarray) (upload_uri : value)
    (max_image_history : option Z)
| Flush
| Set_flush_threshold (v : Z)
| Set_async_enable (v : value)
| Set_storage_uri (v : value)
| Exit (exc_type : option string) (exc_val : option exn)
    (exc_tb : option string).

Definition run (op : Op) : M unit :=
  match op with
  | Report_scalar t s v i => report_scalar t s v i
  | Report_vector t s v i => report_vector t s v i
  | Report_plot t s p i => report_plot t s p i
  | Report_image t s src i => report_image t s src i
  | Report_image_and_upload t s i p m u h =>
      report_image_and_upload t s i p m u h
  | Report_histogram t s h i l x c => report_histogram t s h i l x c
  | Report_line_plot t s i x y m r c => report_line_plot t s i x y m r c
  | Report_2d_scatter t s d i m x y l c => report_2d_scatter t s d i m x y l c
  | Report_3d_scatter t s d i l m c ms lw x y z f cm =>
      report_3d_scatter t s d i l m c ms lw x y z f cm
  | Report_value_matrix t s d i x y c => report_value_matrix t s d i x y c
  | Report_value_surface t s d i xl yl x y z cam c =>
      report_value_surface t s d i xl yl x y z cam c
  | Report_image_plot_and_upload t s i p m u h =>
      report_image_plot_and_upload t s i p m u h
  | Flush => flush
  | Set_flush_threshold v => setattr flush_threshold v
  | Set_async_enable v => setattr async_enable v
  | Set_storage_uri v => setattr storage_uri v
  | Exit ty v tb => __exit__ ty v tb
  end.

(** The calls named [report_*]. *)
Definition is_report (op : Op) : bool :=
  match op with
  | Flush | Set_flush_threshold _ | Set_async_enable _ | Set_storage_uri _
  | Exit _ _ _ => false
  | _ => true
  end.

Definition is_report_image_plot_and_upload (op : Op) : bool :=
  match op with
  | Report_image_plot_and_upload _ _ _ _ _ _ _ => true
  | _ => false
  end.

(** A program using the reporter: the calls are made one after the
    other, whether or not one of them raised (the caller caught it). *)
Fixpoint exec (ops : list Op) (r : t) : t :=
  match ops with
  | [] => r
  | op :: ops' => exec ops' (snd (run op r))
  end.

(** The states a reporter can be in: built by [__init__], then used
    through the public interface. *)
Definition reachable (r : t) : Prop :=
  exists metrics flush_threshold async_enable ops,
    r = exec ops (__init__ metrics flush_threshold async_enable).

(** ** Reading the call log *)

(** The calls made between two states of the same reporter. *)
Definition calls_since (r r' : t) : list Call :=
  skipn (List.length (calls r)) (calls r').

Definition is_write_call (c : Call) : bool :=
  match c with Call_write => true | _ => false end.
Definition is_flush_call (c : Call) : bool :=
  match c with Call_flush => true | _ => false end.
Definition is_write_events_call (c : Call) : bool :=
  match c with Call_write_events _ _ _ => true | _ => false end.

(** How many times [_write], [flush], [write_events] ran between two
    states. *)
Definition writes_between (r r' : t) : nat :=
  List.length (filter is_write_call (calls_since r r')).
Definition flushes_between (r r' : t) : nat :=
  List.length (filter is_flush_call (calls_since r r')).
Definition write_events_between (r r' : t) : nat :=
  List.length (filter is_write_events_call (calls_since r r')).

End WithCollaborators.

Arguments t : clear implicits.
Arguments M : clear implicits.
Arguments fget {Metrics A B} p.
Arguments fset {Metrics A B} p.

End Reporter.

(* ===================================================================== *)
(** * Concrete collaborators, for running the code on examples           *)
(* ===================================================================== *)

Module Demo.

(** A Metrics manager that answers its successive [write_events] calls
    from a script, and returns nothing once the script is used up. *)
Record ScriptedMetrics : Type := mkScripted {
  prefix_of : value;
  answers : list (Res WriteResult)
}.

#[export] Instance scripted_api : MetricsAPI ScriptedMetrics := {|
  storage_key_prefix m := prefix_of m;
  write_events m _ _ _ :=
    match answers m with
    | [] => (Ok NoResult, m)
    | a :: rest => (a, mkScripted (prefix_of m) rest)
    end
|}.

(** Chart builders that return a one-entry chart. *)
Definition stub_chart (kind : string) : Res Chart :=
  Ok [("type", VStr kind)].

#[export] Instance stub_plotly : Plotly := {|
  create_2d_histogram_plot _ _ _ _ _ _ := stub_chart "bar";
  create_line_plot _ _ _ _ _ _ _ := stub_chart "line";
  create_2d_scatter_series _ _ _ _ _ _ _ _ := stub_chart "scatter";
  plotly_scatter3d_layout_dict _ _ _ _ _ := stub_chart "layout";
  create_3d_scatter_series _ _ _ _ plotly_obj _ _ _ _ _ :=
    Ok (plotly_obj ++ [("type", VStr "scatter3d")])%list;
  create_value_matrix _ _ _ _ _ _ := stub_chart "heatmap";
  create_3d_surface _ _ _ _ _ _ _ _ _ _ := stub_chart "surface";
  create_image_plot _ _ _ _ := stub_chart "image";
  json_dumps _ := "{}";
  get_target_full_upload_uri _ uri _ := Ok (VNone, uri)
|}.

Definition ok_response : Response := mkResponse (mkMeta 200 "200 OK") EmptyString.
Definition accepted_response : Response :=
  mkResponse (mkMeta 202 "202 Accepted") EmptyString.
Definition not_found_response : Response :=
  mkResponse (mkMeta 404 "404 Not Found") EmptyString.
Definition unavailable_response : Response :=
  mkResponse (mkMeta 503 "503 Service Unavailable") EmptyString.

Definition add_request : Request :=
  mkRequest false "events.add" [("task", "t1"); ("metric", "loss")].

(** A manager with no key prefix whose writes succeed. *)
Definition healthy : ScriptedMetrics := mkScripted VNone [].

(** A manager whose first write raises the dispatcher's [SendError]. *)
Definition rejecting : ScriptedMetrics :=
  mkScripted VNone
    [Raise (SendError not_found_response "Action failed 404 Not Found")].

End Demo.


(* ===================================================================== *)
(** * base.py: the default session and [IdObjectBase]                    *)
(* ===================================================================== *)

(** [str.strip()] without arguments. *)
Module PyStrip.

(** [c.isspace()] for the characters below 256 of a Python 3 [str]:
    tab to carriage return, the four separators 28 to 31, space, NEL and
    the no-break space. *)
Definition py_isspace (c : ascii) : bool :=
  let n := nat_of_ascii c in
  ((9 <=? n) && (n <=? 13) || (28 <=? n) && (n <=? 32)
   || (n =? 133) || (n =? 160))%nat%bool.

(** [s.lstrip()] *)
Fixpoint str_lstrip_ws (s : string) : string :=
  match s with
  | EmptyString => EmptyString
  | String c s' => if py_isspace c then str_lstrip_ws s' else s
  end.

(** [s.rstrip()] *)
Fixpoint str_rstrip_ws (s : string) : string :=
  match s with
  | EmptyString => EmptyString
  | String c s' =>
      let r := str_rstrip_ws s' in
      if ((r =? EmptyString)%string && py_isspace c)%bool then EmptyString
      else String c r
  end.

(** [s.strip()] *)
Definition str_strip (s : string) : string := str_rstrip_ws (str_lstrip_ws s).

End PyStrip.
Export PyStrip.

Module DefaultSession.
Import InterfaceBase.

(** A logger, by its name. *)
Definition Logger : Type := string.

Section WithFactory.

Context {World : Type}.

(** What [InterfaceBase] builds when it is given nothing: the
    constructor call [Session(initialize_logging=False, client=...,
    config=..., api_key=..., secret_key=...)] and [_create_log()], both
    of which may raise and may change the world around them. *)
Class Factory : Type := {
  new_session : World -> Res Session * World;
  _create_log : World -> Res Logger * World
}.

Context {factory : Factory}.

(** The class attribute [InterfaceBase._default_session], shared by all
    instances. *)
Record Globals : Type := mkGlobals {
  _default_session : option Session
}.

(** The attributes [InterfaceBase.__init__] sets. *)
Record t : Type := mk {
  _session : Session;
  _log : Logger
}.

(** [InterfaceBase._get_default_session]: the session is built on the
    first call and kept.  (A session object is truthy.) *)
Definition _get_default_session (st : Globals * World)
    : Res Session * (Globals * World) :=
  let (g, w) := st in
  match _default_session g with
  | Some s => (Ok s, st)
  | None =>
      match new_session w with
      | (Ok s, w') => (Ok s, (mkGlobals (Some s), w'))
      | (Raise e, w') => (Raise e, (g, w'))
      end
  end.

(** [InterfaceBase._set_default_session] *)
Definition _set_default_session (session : option Session)
    (st : Globals * World) : Globals * World :=
  (mkGlobals session, snd st).

(** [InterfaceBase.__init__(session=None, log=None)]:
    [session or self._get_default_session()], then
    [log or self._create_log()]. *)
Definition __init__ (session : option Session) (log : option Logger)
    (st : Globals * World) : Res t * (Globals * World) :=
  let '(s, st1) :=
    match session with
    | Some s => (Ok s, st)
    | None => _get_default_session st
    end in
  match s with
  | Raise e => (Raise e, st1)
  | Ok s =>
      match log with
      | Some l => (Ok (mk s l), st1)
      | None =>
          match _create_log (snd st1) with
          | (Ok l, w') => (Ok (mk s l), (fst st1, w'))
          | (Raise e, w') => (Raise e, (fst st1, w'))
          end
      end
  end.

(** The [default_session] property of a constructed object:
    [hasattr(self, '_session')] holds. *)
Definition default_session (self : t) : Session := _session self.

End WithFactory.

Arguments Factory : clear implicits.

End DefaultSession.

Module IdObjectBase.

Section WithSubclass.

Context {Data World : Type}.

(** The attributes [IdObjectBase.__init__] adds to those of
    [InterfaceBase] (modelled in [DefaultSession]): the cached data and
    the id. *)
Record t : Type := mk {
  _data : option Data;
  _id : option string
}.

(** What a call of the abstract [_reload] does: it returns the data
    (possibly [None]), raises an exception derived from [Exception], or
    raises one that is not ([KeyboardInterrupt], [SystemExit],
    [GeneratorExit]). *)
Inductive Reloading : Type :=
| Reloaded (d : option Data)
| RaisesException (e : exn)
| RaisesBaseException (e : exn).

(** What a concrete subclass supplies: its name and the abstract
    [_reload], which reads the object and the world and may change the
    world. *)
Class Subclass : Type := {
  class_name : string;
  _reload : t -> World -> Reloading * World
}.

Context {subclass : Subclass}.

(** [bool(self.id)] *)
Definition id_truthy (id : option string) : bool :=
  match id with
  | None => false
  | Some s => negb (s =? EmptyString)%string
  end.

(** [a != b] on ids *)
Definition id_neq (a b : option string) : bool :=
  match a, b with
  | None, None => false
  | Some x, Some y => negb (x =? y)%string
  | _, _ => true
  end.

(** [IdObjectBase.reload]: without an id it raises; with one,
    [except Exception: pass] swallows what [_reload] raises if it is an
    [Exception], and lets anything else through. *)
Definition reload (st : t * World) : Res unit * (t * World) :=
  let (self, w) := st in
  if negb (id_truthy (_id self))
  then (Raise (ValueError ("Failed reloading " ++ class_name ++ ": missing id")),
        st)
  else
    match _reload self w with
    | (Reloaded d, w') => (Ok tt, (mk d (_id self), w'))
    | (RaisesException _, w') => (Ok tt, (self, w'))
    | (RaisesBaseException e, w') => (Raise e, (self, w'))
    end.

(** The [id] property: the getter, and the setter, which reloads when
    the new id is not [None] and differs from the old one. *)
Definition get_id (self : t) : option string := _id self.

Definition set_id (value : option string) (st : t * World)
    : Res unit * (t * World) :=
  let (self, w) := st in
  let should_reload := (is_not_none value && id_neq value (_id self))%bool in
  let st' := (mk (_data self) value, w) in
  if should_reload then reload st' else (Ok tt, st').

(** The [data] property: reloads when nothing is cached. *)
Definition data (st : t * World) : Res (option Data) * (t * World) :=
  match _data (fst st) with
  | None =>
      match reload st with
      | (Ok _, st') => (Ok (_data (fst st')), st')
      | (Raise e, st') => (Raise e, st')
      end
  | Some _ => (Ok (_data (fst st)), st)
  end.

(** [IdObjectBase.normalize_id]: [id.strip() if id else None] *)
Definition normalize_id (id : value) : Res (option string) :=
  if truthy id then
    match id with
    | VStr s => Ok (Some (str_strip s))
    | _ => Raise (AttributeError "strip")
    end
  else Ok None.

(** [IdObjectBase.__init__(id)], after [InterfaceBase.__init__]:
    [self._data = None], [self._id = None],
    [self.id = self.normalize_id(id)]. *)
Definition __init__ (id : value) (w : World) : Res unit * (t * World) :=
  let self := mk None None in
  match normalize_id id with
  | Ok v => set_id v (self, w)
  | Raise e => (Raise e, (self, w))
  end.

(** [IdObjectBase.resolve_id]: an object of the class gives its id, an
    id is given back. *)
Definition resolve_id (obj : t + option string) : option string :=
  match obj with
  | inl o => get_id o
  | inr id => id
  end.

End WithSubclass.

Arguments t : clear implicits.
Arguments Reloading : clear implicits.
Arguments Subclass : clear implicits.

End IdObjectBase.

(** Concrete stand-ins for the two. *)
Module BaseDemo.
Import InterfaceBase.

(** A world that counts the sessions built; the n-th one answers n
    times with a 503 and then with a 200. *)
#[export] Instance counting_factory : DefaultSession.Factory nat := {|
  DefaultSession.new_session n :=
    (Ok (repeat (Responds Demo.unavailable_response) n
         ++ [Responds Demo.ok_response])%list, S n);
  DefaultSession._create_log n := (Ok "trains", n)
|}.

(** A task-like object whose backend record is its id followed by the
    number of reloads so far; the backend is down (raises) while the
    world is at 0. *)
#[export] Instance task_like : IdObjectBase.Subclass (string * nat) nat := {|
  IdObjectBase.class_name := "Task";
  IdObjectBase._reload self n :=
    match n with
    | O => (IdObjectBase.RaisesException (Foreign "ConnectionError"), S n)
    | S _ =>
        (IdObjectBase.Reloaded
           (match IdObjectBase._id self with
            | Some i => Some (i, n)
            | None => None
            end), S n)
    end
|}.

(** An object whose reload is interrupted from the keyboard. *)
#[export] Instance interrupted : IdObjectBase.Subclass unit unit := {|
  IdObjectBase.class_name := "Model";
  IdObjectBase._reload _ w :=
    (IdObjectBase.RaisesBaseException (Foreign "KeyboardInterrupt"), w)
|}.

End BaseDemo.
(* ===================================================================== *)
(** * Readings of the specification the code is compared with          *)
(* ===================================================================== *)

Module Readings.
Import InterfaceBase Reporter.

(** "Every well-formed response, whatever its result code, ends the
    iteration: one request is issued and the response is returned or
    [SendError] is raised." *)
Definition every_response_ends_the_loop : Prop :=
  forall res session req ignore_errors raise_on_errors log async_enable w,
    let out := _send (Responds res :: session) req ignore_errors
                 raise_on_errors log async_enable w in
    requests_issued (snd out) = S (requests_issued w) /\
    (fst out = Returned res \/ exists msg, fst out = Raised (SendError res msg)).

(** The outcomes after which the dispatcher issues the request again:
    a caught transport exception (a logger being there to log it), and
    a response above 500 that is neither a success nor ignored. *)
Definition retried (ignore_errors log : bool) (o : Outcome) : bool :=
  match o with
  | Responds res =>
      negb (in_200_202 res || ignore_errors)
      && negb (result_code (meta res) <=? 500)
  | RaisesBaseHTTPError _ => log
  | RaisesOther _ => false
  end.

(** "Replaces every occurrence of ['$'] and of ['.'] with ['/'] and
    leaves all other characters in place": what becomes of one
    character. *)
Definition reserved_to_slash (c : ascii) : ascii :=
  if (Ascii.eqb c "$" || Ascii.eqb c ".")%bool then "/"%char else c.

(** A string with each character replaced in place. *)
Fixpoint map_chars (f : ascii -> ascii) (s : string) : string :=
  match s with
  | EmptyString => EmptyString
  | String c s' => String (f c) (map_chars f s')
  end.

(** [k] slashes. *)
Fixpoint slashes (k : nat) : string :=
  match k with
  | O => EmptyString
  | S k' => String "/" (slashes k')
  end.

(** "Joined by ['/'] with the key prefix, with empty components
    omitted." *)
Definition upload_destination (base key_prefix : string) : string :=
  if (base =? EmptyString)%string then key_prefix
  else if (key_prefix =? EmptyString)%string then base
  else base ++ "/" ++ key_prefix.

(** "Well-formed events": a vector event carries an iterable, a plot
    event a string, an image-and-upload event exactly one of a file path
    and in-memory data. *)
Definition well_formed (ev : Event) : Prop :=
  match ev with
  | VectorEvent _ _ values _ => is_iterable values = true
  | PlotEvent _ _ plot_str _ => is_str plot_str = true
  | ImageEvent image_data _ local_image_path _ _ _ _ =>
      count_not_none local_image_path image_data = 1
  | ScalarEvent _ _ _ _ | ImageEventNoUpload _ _ _ _ => True
  end.

(** The events handed to [write_events] in a logged call. *)
Definition well_formed_call (c : Call) : Prop :=
  match c with
  | Call_write_events events _ _ => Forall well_formed events
  | _ => True
  end.

(** One [report_scalar(title, series, value, iter)] call with string
    title and series, as an entry of a sequence of such calls. *)
Definition scalar_call (c : string * string * value * Z) : Op :=
  match c with
  | (title, series, value, iter) =>
      Report_scalar (VStr title) (VStr series) value iter
  end.

Section AsStated.

Context {Metrics : Type} {metrics_api : MetricsAPI Metrics} {plotly : Plotly}.

(** "For every [report_*] call: when the write is not invoked the buffer
    has grown by exactly one event." *)
Definition every_report_call_appends_one : Prop :=
  forall (op : Op) (r : Reporter.t Metrics),
    is_report op = true ->
    let out := run op r in
    fst out = Ok tt ->
    writes_between r (snd out) = 0%nat ->
    List.length (_events (snd out)) = S (List.length (_events r)).

(** "[_write] leaves the buffer empty afterwards regardless of the
    success or failure of that write." *)
Definition write_always_clears : Prop :=
  forall r : Reporter.t Metrics, _events (snd (_write r)) = [].

(** "[report_image_and_upload] raises a validation failure if and only
    if zero or both of path and matrix are supplied." *)
Definition validation_failure_iff_not_exactly_one : Prop :=
  forall (r : Reporter.t Metrics) title series iter path matrix upload_uri
         max_image_history,
    fst (report_image_and_upload title series iter path matrix upload_uri
           max_image_history r)
    = Raise (ValueError "Expected only one of [filename, matrix]")
    <-> count_not_none path matrix <> 1.

(** "In every reachable state, [flush_threshold] is at least 0." *)
Definition threshold_never_negative : Prop :=
  forall r : Reporter.t Metrics, reachable r -> 0 <= _flush_threshold r.

End AsStated.

End Readings.


(* ===================================================================== *)
(** * The elementary state changes of a reporter                         *)
(* ===================================================================== *)

Module Steps.
Import Reporter Readings.

Section Moves.

Context {Metrics : Type}.

(** What the methods of a reporter can do to it, one assignment at a
    time: log a call ([write_events] only with the buffer as it is),
    replace the manager or the pending results, clear the buffer, append
    a well-formed event, store a clamped threshold, set the async flag
    or the storage URI. *)
Inductive moves : Reporter.t Metrics -> Reporter.t Metrics -> Prop :=
| moves_refl r : moves r r
| moves_trans r1 r2 r3 : moves r1 r2 -> moves r2 r3 -> moves r1 r3
| moves_call c r :
    is_write_events_call c = false -> moves r (with_call c r)
| moves_call_write_events a u r :
    moves r (with_call (Call_write_events (_events r) a u) r)
| moves_metrics m r : moves r (with_metrics m r)
| moves_results l r : moves r (with_async_results l r)
| moves_clear r : moves r (with_events [] r)
| moves_append ev r :
    well_formed ev -> moves r (with_events (_events r ++ [ev]) r)
| moves_threshold n r : 0 <= n -> moves r (with_flush_threshold n r)
| moves_async_enable b r : moves r (with_async_enable b r)
| moves_storage_uri v r : moves r (with_storage_uri v r).

(** A method all of whose runs are made of such changes. *)
Definition steps {A : Type} (c : Reporter.M Metrics A) : Prop :=
  forall r, moves r (snd (c r)).

(** The buffer holds well-formed events only, and so did every batch
    handed to [write_events]. *)
Definition all_well_formed (r : Reporter.t Metrics) : Prop :=
  Forall well_formed (_events r) /\ Forall well_formed_call (calls r).

End Moves.

End Steps.

(* ===================================================================== *)
(** * What the call log tells about the events                           *)
(* ===================================================================== *)

Module Ledger.
Import Reporter.

(** The events handed to [write_events] so far, batch after batch. *)
Definition handed (cs : list Call) : list Event :=
  flat_map (fun c => match c with
                     | Call_write_events events _ _ => events
                     | _ => []
                     end) cs.

(** The events passed to [_report] so far. *)
Definition reported (cs : list Call) : list Event :=
  flat_map (fun c => match c with
                     | Call_report ev => [ev]
                     | _ => []
                     end) cs.

(** No logged [write_events] call had an empty batch. *)
Definition batches_not_empty (cs : list Call) : Prop :=
  Forall (fun c => match c with
                   | Call_write_events events _ _ => events <> []
                   | _ => True
                   end) cs.

Section Keeps.

Context {Metrics : Type}.

(** A method that keeps a property of the reporter, however it ends. *)
Definition keeps {A : Type} (I : Reporter.t Metrics -> Prop)
    (c : Reporter.M Metrics A) : Prop :=
  forall r, I r -> I (snd (c r)).

(** A property of the reporter a method establishes whenever it
    returns. *)
Definition ensures {A : Type} (c : Reporter.M Metrics A)
    (Q : Reporter.t Metrics -> Prop) : Prop :=
  forall r, (exists a, fst (c r) = Ok a) -> Q (snd (c r)).

End Keeps.

Section Runs.

Context {Metrics : Type} {metrics_api : MetricsAPI Metrics} {plotly : Plotly}.

(** Every call of a sequence returns (none of them raises), each one
    made on the reporter as the calls before it left it. *)
Fixpoint all_return (ops : list Op) (r : Reporter.t Metrics) : Prop :=
  match ops with
  | [] => True
  | op :: ops' =>
      fst (run op r) = Ok tt /\ all_return ops' (snd (run op r))
  end.

End Runs.

End Ledger.

(** A Metrics manager whose writes always return. *)
Module Steady.

#[export] Instance steady_api : MetricsAPI unit := {|
  storage_key_prefix _ := VNone;
  write_events m _ _ _ := (Ok NoResult, m)
|}.

End Steady.
(* ===================================================================== *)
(** * The dispatcher: which outcomes end the loop and which repeat it     *)
(* ===================================================================== *)

Module DispatcherFacts.
Import InterfaceBase Demo Readings.

Lemma requests_issued_issue req a w :
  requests_issued (issue req a w) = S (requests_issued w).
Proof.
  unfold requests_issued, issue; cbn.
  rewrite length_app; cbn; lia.
Qed.

Lemma requests_issued_log_to rec w :
  requests_issued (log_to rec w) = requests_issued w.
Proof. reflexivity. Qed.

Lemma requests_issued_log_if log rec w :
  requests_issued (log_if log rec w) = requests_issued w.
Proof. destruct log; reflexivity. Qed.

Lemma in_200_202_iff res :
  in_200_202 res = true <->
  result_code (meta res) = 200 \/ result_code (meta res) = 202.
Proof.
  unfold in_200_202.
  rewrite orb_true_iff, !Z.eqb_eq; tauto.
Qed.

Lemma in_200_202_false res :
  result_code (meta res) <> 200 -> result_code (meta res) <> 202 ->
  in_200_202 res = false.
Proof.
  intros H1 H2; destruct (in_200_202 res) eqn:E; [|reflexivity].
  apply in_200_202_iff in E; tauto.
Qed.

Lemma ends_iteration_cases res ignore_errors :
  (result_code (meta res) = 200 \/ result_code (meta res) = 202 \/
   ignore_errors = true \/ result_code (meta res) <= 500) ->
  (in_200_202 res || ignore_errors)%bool = true \/
  ((in_200_202 res || ignore_errors)%bool = false /\
   (result_code (meta res) <=? 500) = true).
Proof.
  intros H.
  destruct (in_200_202 res || ignore_errors)%bool eqn:E; [now left|right].
  split; [reflexivity|].
  apply orb_false_iff in E. destruct E as [E1 E2].
  apply Z.leb_le.
  destruct H as [H|[H|[H|H]]]; try assumption.
  - assert (in_200_202 res = true) by (apply in_200_202_iff; tauto). congruence.
  - assert (in_200_202 res = true) by (apply in_200_202_iff; tauto). congruence.
  - congruence.
Qed.

(** C5.  The dispatcher classifies a well-formed response: with result
    code 200 or 202, or with [ignore_errors], the response is returned
    at once and nothing is logged; otherwise, with a result code of at
    most 500, [SendError] carrying the response and the diagnostic
    message is raised when [raise_on_errors] is true, and the failed
    response itself is returned when it is false. *)
Theorem send_classifies_response :
  forall res session req ignore_errors raise_on_errors log async_enable w,
    let out := _send (Responds res :: session) req ignore_errors
                 raise_on_errors log async_enable w in
    ((result_code (meta res) = 200 \/ result_code (meta res) = 202 \/
      ignore_errors = true) ->
       fst out = Returned res /\
       logged (snd out) = logged w /\
       requests_issued (snd out) = S (requests_issued w))
    /\
    (result_code (meta res) <> 200 -> result_code (meta res) <> 202 ->
     ignore_errors = false -> result_code (meta res) <= 500 ->
       (raise_on_errors = true ->
          fst out = Raised (SendError res (error_msg req res))) /\
       (raise_on_errors = false -> fst out = Returned res) /\
       requests_issued (snd out) = S (requests_issued w)).
Proof.
  intros res session req ie roe log ae w out; subst out; split.
  - intros H.
    assert (E : (in_200_202 res || ie)%bool = true).
    { apply orb_true_iff. rewrite in_200_202_iff. tauto. }
    cbn [_send]. rewrite E. cbn.
    repeat split. apply requests_issued_issue.
  - intros H200 H202 Hie Hle.
    cbn [_send]. rewrite (in_200_202_false res H200 H202), Hie. cbn [orb].
    apply Z.leb_le in Hle. rewrite Hle.
    repeat split.
    + intros ->. reflexivity.
    + intros ->. reflexivity.
    + destruct roe; cbn [snd];
        rewrite requests_issued_log_if; apply requests_issued_issue.
Qed.

(** A 404 with [raise_on_errors=True] raises [SendError]. *)
Lemma send_classifies_response_witness :
  fst (_send [Responds not_found_response] add_request false true true false
         wire0)
  = Raised (SendError not_found_response
              "Action failed 404 Not Found (task=t1, metric=loss)").
Proof.
  apply (proj2 (send_classifies_response not_found_response [] add_request
                  false true true false wire0)).
  - cbn; discriminate.
  - cbn; discriminate.
  - reflexivity.
  - cbn; discriminate.
  - reflexivity.
Defined.

(** The loop as a whole: the outcomes that are retried are passed over
    one request each, and the first outcome that is not retried decides
    how [_send] ends. *)
Lemma send_passes_over_retried (pre rest : Session) req ignore_errors
    raise_on_errors log async_enable :
  forallb (retried ignore_errors log) pre = true ->
  forall w, exists w',
    _send (pre ++ rest)%list req ignore_errors raise_on_errors log async_enable w
    = _send rest req ignore_errors raise_on_errors log async_enable w' /\
    requests_issued w' = (requests_issued w + List.length pre)%nat.
Proof.
  induction pre as [|o pre IH]; intros Hpre w.
  - exists w. split; [reflexivity|]. cbn. lia.
  - cbn [forallb] in Hpre. apply andb_true_iff in Hpre as [Ho Hpre].
    cbn [app _send].
    destruct o as [res|e|e]; cbn [retried] in Ho; [| |discriminate].
    + apply andb_true_iff in Ho as [H1 H2].
      apply negb_true_iff in H1, H2. rewrite H1, H2.
      edestruct (IH Hpre) as (w' & Hw & Hn).
      exists w'. split; [exact Hw|].
      rewrite Hn, !requests_issued_log_if, requests_issued_issue.
      cbn [List.length]. lia.
    + subst log.
      edestruct (IH Hpre) as (w' & Hw & Hn).
      exists w'. split; [exact Hw|].
      rewrite Hn, !requests_issued_log_to, requests_issued_issue.
      cbn [List.length]. lia.
Qed.

(** A session that only ever answers with retried outcomes keeps the
    dispatcher sending: it never returns and never raises. *)
Lemma send_keeps_resending (session : Session) req ignore_errors
    raise_on_errors log async_enable w :
  forallb (retried ignore_errors log) session = true ->
  fst (_send session req ignore_errors raise_on_errors log async_enable w)
  = Resending.
Proof.
  intros H.
  destruct (send_passes_over_retried session [] req ignore_errors
              raise_on_errors log async_enable H w) as (w' & Hw & _).
  rewrite app_nil_r in Hw. rewrite Hw. reflexivity.
Qed.

(** C3, as stated, fails: a well-formed response with result code 503 is
    neither returned nor turned into [SendError]; the request is issued a
    second time and the answer to that one is returned. *)
Lemma unavailable_response_is_resent :
  (let out := _send [Responds unavailable_response; Responds ok_response]
                add_request false true true false wire0 in
   fst out = Returned ok_response /\ requests_issued (snd out) = 2%nat)
  /\ ~ every_response_ends_the_loop.
Proof.
  split.
  - split; reflexivity.
  - intros H.
    specialize (H unavailable_response [Responds ok_response] add_request
                  false true true false wire0).
    cbn in H. destruct H as [H _]. discriminate H.
Qed.

(** C3, amended.  A retry is caused by a [BaseHTTPError] of the
    transport and by a well-formed response whose result code is above
    500 while [ignore_errors] is false, and by nothing else: every
    response with code 200 or 202, or with [ignore_errors], or with a
    code of at most 500 ends the iteration with the response returned or
    [SendError] raised after exactly one request, whatever the session
    would answer next; any other exception of the transport leaves the
    dispatcher. *)
Theorem send_retries_only_fault_or_above_500 :
  forall outcome session req ignore_errors raise_on_errors log async_enable w,
    let send_on := fun s w => _send s req ignore_errors raise_on_errors log
                                async_enable w in
    let out := send_on (outcome :: session) w in
    (forall res, outcome = Responds res ->
       (result_code (meta res) = 200 \/ result_code (meta res) = 202 \/
        ignore_errors = true \/ result_code (meta res) <= 500) ->
       requests_issued (snd out) = S (requests_issued w) /\
       (fst out = Returned res \/
        fst out = Raised (SendError res (error_msg req res))) /\
       out = send_on [outcome] w)
    /\
    (forall res, outcome = Responds res ->
       result_code (meta res) <> 200 -> result_code (meta res) <> 202 ->
       ignore_errors = false -> 500 < result_code (meta res) ->
       out = send_on session
               (log_if log (LogInfo ("retrying request " ++ req_str req))
                  (log_if log (LogError (error_msg req res))
                     (issue req async_enable w))))
    /\
    (forall e, outcome = RaisesBaseHTTPError e -> log = true ->
       out = send_on session
               (log_to (LogInfo ("retrying request " ++ req_str req))
                  (log_to (LogError ("failed sending " ++ req_str req
                                       ++ ": " ++ e))
                     (issue req async_enable w))))
    /\
    (forall e, outcome = RaisesBaseHTTPError e -> log = false ->
       out = (Raised (AttributeError "error"), issue req async_enable w))
    /\
    (forall e, outcome = RaisesOther e ->
       out = (Raised e, issue req async_enable w)).
Proof.
  intros outcome session req ie roe log ae w send_on out.
  subst out send_on; cbv beta.
  split; [|split; [|split; [|split]]].
  - intros res -> H. cbn [_send].
    destruct (ends_iteration_cases res ie H) as [E|[E1 E2]].
    + rewrite E. cbn [fst snd].
      split; [apply requests_issued_issue|]. split; [now left|reflexivity].
    + rewrite E1, E2.
      destruct roe; cbn [fst snd]; rewrite requests_issued_log_if;
        (split; [apply requests_issued_issue|]);
        (split; [tauto|reflexivity]).
  - intros res -> H200 H202 -> Hgt. cbn [_send].
    rewrite (in_200_202_false res H200 H202). cbn [orb].
    apply Z.leb_gt in Hgt. rewrite Hgt. reflexivity.
  - intros e -> ->. reflexivity.
  - intros e -> ->. reflexivity.
  - intros e ->. reflexivity.
Qed.

(** A 503 followed by a 200: the request goes out again. *)
Lemma send_retries_only_fault_or_above_500_witness :
  _send [Responds unavailable_response; Responds ok_response] add_request
    false true true false wire0
  = _send [Responds ok_response] add_request false true true false
      (mkWire [(add_request, false)]
         [LogError "Action failed 503 Service Unavailable (task=t1, metric=loss)";
          LogInfo "retrying request events.add"]).
Proof.
  apply (proj1 (proj2 (send_retries_only_fault_or_above_500
                         (Responds unavailable_response)
                         [Responds ok_response] add_request false true true
                         false wire0)) unavailable_response).
  - reflexivity.
  - cbn; discriminate.
  - cbn; discriminate.
  - reflexivity.
  - cbn; reflexivity.
Defined.

End DispatcherFacts.

(* ===================================================================== *)
(** * Strings: [replace], [rstrip], and name normalization               *)
(* ===================================================================== *)

Module StringFacts.
Import Readings.

Lemma prefix_empty s : prefix EmptyString s = true.
Proof. destruct s; reflexivity. Qed.

Lemma prefix_single a c s :
  prefix (String a EmptyString) (String c s) = Ascii.eqb c a.
Proof.
  cbn. destruct (ascii_dec a c) as [->|N].
  - rewrite prefix_empty, Ascii.eqb_refl. reflexivity.
  - symmetry. apply Ascii.eqb_neq. congruence.
Qed.

(** Replacing one character by one character works character by
    character. *)
Lemma str_replace_char a b s :
  str_replace (String a EmptyString) (String b EmptyString) s
  = map_chars (fun c => if Ascii.eqb c a then b else c) s.
Proof.
  unfold str_replace. cbn [String.eqb].
  induction s as [|c s IH]; [reflexivity|].
  cbn [replace_from map_chars]. rewrite prefix_single.
  destruct (Ascii.eqb c a); cbn; rewrite IH; reflexivity.
Qed.

Lemma map_chars_compose f g s :
  map_chars g (map_chars f s) = map_chars (fun c => g (f c)) s.
Proof. induction s; cbn; congruence. Qed.

Lemma map_chars_ext f g s :
  (forall c, f c = g c) -> map_chars f s = map_chars g s.
Proof. intros H; induction s; cbn; congruence. Qed.

Lemma map_chars_length f s : String.length (map_chars f s) = String.length s.
Proof. induction s; cbn; congruence. Qed.

Lemma map_chars_get f s i :
  String.get i (map_chars f s) = option_map f (String.get i s).
Proof.
  revert i; induction s as [|c s IH]; intros i; [reflexivity|].
  destruct i; cbn; [reflexivity|apply IH].
Qed.

Lemma dollar_then_dot c :
  (if Ascii.eqb (if Ascii.eqb c "$" then "/"%char else c) "."
   then "/"%char
   else if Ascii.eqb c "$" then "/"%char else c)
  = reserved_to_slash c.
Proof.
  unfold reserved_to_slash.
  destruct (Ascii.eqb c "$") eqn:E; [reflexivity|].
  cbn [orb]. reflexivity.
Qed.

(** [name.replace('$', '/').replace('.', '/')], character by character. *)
Lemma normalize_chars s :
  str_replace "." "/" (str_replace "$" "/" s) = map_chars reserved_to_slash s.
Proof.
  rewrite !str_replace_char, map_chars_compose.
  apply map_chars_ext, dollar_then_dot.
Qed.

Lemma normalize_name_str s :
  Reporter._normalize_name (VStr s) = Ok (VStr (map_chars reserved_to_slash s)).
Proof.
  unfold Reporter._normalize_name.
  destruct s as [|c s]; [reflexivity|].
  cbn [truthy String.eqb negb]. rewrite normalize_chars. reflexivity.
Qed.

(** C9.  [_normalize_name] replaces every ['$'] and every ['.'] of its
    input by ['/'] and leaves every other character in place: the
    result has the length of the input and, at each index, the input's
    character, turned into ['/'] when it is ['$'] or ['.'];
    ["a.b$c"] becomes ["a/b/c"]; and a falsy input (the empty string,
    [None], ...) is returned as it is. *)
Theorem normalize_name_replaces_reserved :
  (forall s, exists s',
      Reporter._normalize_name (VStr s) = Ok (VStr s') /\
      String.length s' = String.length s /\
      forall i, String.get i s' = option_map reserved_to_slash (String.get i s))
  /\ Reporter._normalize_name (VStr "a.b$c") = Ok (VStr "a/b/c")
  /\ (forall v, truthy v = false -> Reporter._normalize_name v = Ok v)
  /\ Reporter._normalize_name (VStr EmptyString) = Ok (VStr EmptyString)
  /\ Reporter._normalize_name VNone = Ok VNone.
Proof.
  split; [|split; [|split; [|split]]]; try reflexivity.
  - intros s. exists (map_chars reserved_to_slash s).
    split; [apply normalize_name_str|].
    split; [apply map_chars_length|].
    intros i; apply map_chars_get.
  - intros v H. unfold Reporter._normalize_name. rewrite H. reflexivity.
Qed.

(** The falsy value [0] comes back unchanged. *)
Lemma normalize_name_replaces_reserved_witness :
  Reporter._normalize_name (VInt 0) = Ok (VInt 0).
Proof.
  apply (proj1 (proj2 (proj2 normalize_name_replaces_reserved)) (VInt 0)).
  reflexivity.
Defined.

(** ** [rstrip] *)

(** What [rstrip('/')] removes is a run of slashes at the end. *)
Lemma rstrip_slash_decompose s :
  exists k, s = str_rstrip "/" s ++ slashes k.
Proof.
  induction s as [|c s [k IH]]; [exists 0%nat; reflexivity|].
  cbn [str_rstrip].
  destruct (str_rstrip "/" s =? EmptyString)%string eqn:E; cbn [andb].
  - apply String.eqb_eq in E. rewrite E in IH. cbn [append] in IH.
    destruct (mem_char c "/") eqn:Ec.
    + exists (S k). cbn.
      unfold mem_char in Ec; cbn in Ec. rewrite orb_false_r in Ec.
      apply Ascii.eqb_eq in Ec. subst c. f_equal. exact IH.
    + exists k. cbn. rewrite E. cbn. f_equal. exact IH.
  - exists k. cbn. f_equal. exact IH.
Qed.

(** And what is left does not end with a slash. *)
Lemma rstrip_slash_no_trailing s t : str_rstrip "/" s <> t ++ "/".
Proof.
  revert t; induction s as [|c s IH]; intros t.
  - destruct t; discriminate.
  - cbn [str_rstrip].
    destruct (str_rstrip "/" s =? EmptyString)%string eqn:E; cbn [andb].
    + apply String.eqb_eq in E.
      destruct (mem_char c "/") eqn:Ec.
      * destruct t; discriminate.
      * rewrite E. destruct t as [|d t]; cbn.
        -- intros [= ->]. cbn in Ec. discriminate.
        -- destruct t; discriminate.
    + apply String.eqb_neq in E.
      destruct t as [|d t]; cbn.
      * intros [= _ H]. congruence.
      * intros [= _ H]. apply (IH t H).
Qed.

End StringFacts.

(* ===================================================================== *)
(** * The reporter: buffering, writing, flushing                         *)
(* ===================================================================== *)

Module ReporterFacts.
Import Reporter Readings Steps Ledger.

Section Facts.

Context {Metrics : Type} {metrics_api : MetricsAPI Metrics} {plotly : Plotly}.

Let reporter : Type := Reporter.t Metrics.

(** ** The call log *)

Lemma skipn_length_app {A : Type} (l d : list A) :
  skipn (List.length l) (l ++ d) = d.
Proof. induction l; cbn; auto. Qed.

Lemma calls_since_app (r r' : reporter) d :
  calls r' = (calls r ++ d)%list -> calls_since r r' = d.
Proof. unfold calls_since; intros ->; apply skipn_length_app. Qed.

Lemma calls_since_refl (r : reporter) : calls_since r r = [].
Proof. apply calls_since_app. symmetry; apply app_nil_r. Qed.

(** Brings the log of a state reached from [r] to the form
    [calls r ++ d], and reads [d] off. *)
Ltac read_calls :=
  unfold writes_between, flushes_between, write_events_between;
  match goal with
  | |- context [calls_since ?r ?r'] =>
      erewrite (calls_since_app r r');
      [| cbn [calls with_call with_events with_metrics with_async_results];
         repeat rewrite <- app_assoc; cbn [app]; reflexivity ]
  end.

(** ** [_write] and [_report], step by step *)

Lemma _write_empty (r : reporter) :
  _events r = [] -> _write r = (Ok tt, with_call Call_write r).
Proof.
  intros H. unfold _write, bind, called, update, self, ret. cbn.
  rewrite H. reflexivity.
Qed.

Lemma _write_nonempty (r : reporter) :
  _events r <> [] ->
  let call := Call_write_events (_events r) (_async_enable r) (_storage_uri r) in
  let answer := write_events (_metrics r) (_events r) (_async_enable r)
                  (_storage_uri r) in
  let r1 := with_metrics (snd answer) (with_call call (with_call Call_write r)) in
  _write r =
  match fst answer with
  | Ok x =>
      (Ok tt,
       with_events []
         (if _async_enable r
          then with_async_results (_async_results r ++ [x])
                 (with_call (Call_add_async_result x) r1)
          else r1))
  | Raise e => (Raise e, r1)
  end.
Proof.
  intros H. cbv zeta.
  unfold _write, metrics_write_events, _add_async_result, bind, called,
    update, self, ret. cbn.
  destruct (_events r) as [|ev evs] eqn:E; [congruence|]. cbn.
  destruct (write_events (_metrics r) (ev :: evs) (_async_enable r)
              (_storage_uri r)) as [[x|e] m]; cbn; [|reflexivity].
  destruct (_async_enable r); reflexivity.
Qed.

Lemma _report_eq (ev : Event) (r : reporter) :
  let r1 := with_events (_events r ++ [ev])
              (with_call (Call_report ev) r) in
  _report ev r =
  if Z.of_nat (List.length (_events r ++ [ev])) >=? _flush_threshold r
  then _write r1
  else (Ok tt, r1).
Proof.
  cbv zeta. unfold _report, bind, called, update, self, ret. cbn.
  destruct (_ >=? _); reflexivity.
Qed.

Lemma app_one_not_nil {A : Type} (l : list A) (a : A) : (l ++ [a])%list <> [].
Proof. destruct l; discriminate. Qed.

(** C2, amended.  [_write] on an empty buffer does nothing ([write_events]
    is not called); on a non-empty buffer it calls [write_events] once,
    with the whole buffer, the current [async_enable] flag and the
    current [storage_uri].  When that call returns, whatever it returns
    (a failed response included), the result is registered with the
    async tracker if [async_enable] is true and the buffer is left
    empty; when that call raises, the exception leaves [_write], nothing
    is registered and the buffer keeps its events. *)
Theorem write_hands_over_buffer_and_clears :
  forall r : reporter,
    let out := _write r in
    let call := Call_write_events (_events r) (_async_enable r)
                  (_storage_uri r) in
    (_events r = [] ->
       out = (Ok tt, with_call Call_write r) /\
       write_events_between r (snd out) = 0%nat)
    /\
    (_events r <> [] ->
       write_events_between r (snd out) = 1%nat /\
       match write_events (_metrics r) (_events r) (_async_enable r)
               (_storage_uri r) with
       | (Ok res, m) =>
           fst out = Ok tt /\
           _events (snd out) = [] /\
           _metrics (snd out) = m /\
           (if _async_enable r
            then _async_results (snd out) = (_async_results r ++ [res])%list /\
                 calls_since r (snd out)
                 = [Call_write; call; Call_add_async_result res]
            else _async_results (snd out) = _async_results r /\
                 calls_since r (snd out) = [Call_write; call])
       | (Raise e, m) =>
           fst out = Raise e /\
           _events (snd out) = _events r /\
           _metrics (snd out) = m /\
           _async_results (snd out) = _async_results r /\
           calls_since r (snd out) = [Call_write; call]
       end).
Proof.
  intros r out call; subst out call; split; intros H.
  - rewrite (_write_empty r H). split; [reflexivity|].
    cbn [snd]. read_calls. reflexivity.
  - rewrite (_write_nonempty r H). cbv zeta.
    destruct (write_events (_metrics r) (_events r) (_async_enable r)
                (_storage_uri r)) as [[x|e] m]; cbn [fst snd].
    + destruct (_async_enable r); cbn [snd].
      * split; [read_calls; reflexivity|].
        repeat split. read_calls; reflexivity.
      * split; [read_calls; reflexivity|].
        repeat split. read_calls; reflexivity.
    + split; [read_calls; reflexivity|].
      repeat split. read_calls; reflexivity.
Qed.

(** ** One [_report] per call *)

#[local] Arguments _report : simpl never.

Ltac crack :=
  repeat match goal with
    | |- context [match ?x with Ok _ => _ | Raise _ => _ end] =>
        destruct x eqn:?
    | |- context [if ?b then _ else _] => destruct b eqn:?
    end.

Ltac refused_or_reported :=
  first
    [ left; eexists; reflexivity
    | right; eexists; split; [|reflexivity]; cbn;
      try reflexivity;
      repeat match goal with
        | H : negb _ = false |- _ => apply negb_false_iff in H
        | H : (_ =? _) = true |- _ => apply Z.eqb_eq in H
        end;
      auto ].

(** Every [report_*] call but [report_image_plot_and_upload] either
    raises before it touches the reporter, or is one [_report] of a
    well-formed event. *)
Lemma report_call_shape (op : Op) (r : reporter) :
  is_report op = true ->
  is_report_image_plot_and_upload op = false ->
  (exists e, run op r = (Raise e, r)) \/
  (exists ev, well_formed ev /\ run op r = _report ev r).
Proof.
  intros Hrep Hnot.
  destruct op; try discriminate; cbn [run];
    unfold report_scalar, report_vector, report_plot, report_image,
      report_image_and_upload, report_histogram, report_line_plot,
      report_2d_scatter, report_3d_scatter, report_value_matrix,
      report_value_surface;
    try match goal with
      | p : value |- context [match ?p with VNone => _ | _ => _ end] =>
          destruct p
      end;
    unfold bind, lift, raise, self, ret; cbn;
    crack; refused_or_reported.
Qed.

(** What one [_report] does to the log and to the buffer. *)
Lemma _report_outcome (ev : Event) (r : reporter) :
  let out := _report ev r in
  let reached :=
    Z.of_nat (S (List.length (_events r))) >=? _flush_threshold r in
  hd_error (calls_since r (snd out)) = Some (Call_report ev) /\
  writes_between r (snd out) = (if reached then 1 else 0)%nat /\
  (if reached
   then match fst (write_events (_metrics r) (_events r ++ [ev])
                     (_async_enable r) (_storage_uri r)) with
        | Ok _ => fst out = Ok tt /\ _events (snd out) = []
        | Raise e => fst out = Raise e
        end
   else fst out = Ok tt /\ _events (snd out) = (_events r ++ [ev])%list).
Proof.
  cbv zeta. rewrite _report_eq. cbv zeta.
  rewrite length_app, Nat.add_1_r.
  destruct (_ >=? _).
  - rewrite _write_nonempty by (cbn; apply app_one_not_nil).
    cbv zeta. cbn [_events _metrics _async_enable _storage_uri with_events
                     with_call].
    destruct (write_events (_metrics r) (_events r ++ [ev]) (_async_enable r)
                (_storage_uri r)) as [[x|e] m]; cbn [fst snd].
    + destruct (_async_enable r); cbn [snd];
        (split; [read_calls; reflexivity|]);
        (split; [read_calls; reflexivity|]); split; reflexivity.
    + split; [read_calls; reflexivity|].
      split; [read_calls; reflexivity|]. reflexivity.
  - cbn [fst snd].
    split; [read_calls; reflexivity|].
    split; [read_calls; reflexivity|]. split; reflexivity.
Qed.

Lemma report_scalar_strings title series value iter (r : reporter) :
  run (scalar_call (title, series, value, iter)) r
  = _report (ScalarEvent (VStr (map_chars reserved_to_slash title))
               (VStr (map_chars reserved_to_slash series)) value iter) r.
Proof.
  cbn [scalar_call run]. unfold report_scalar, bind, lift.
  rewrite !StringFacts.normalize_name_str. reflexivity.
Qed.

(** Reports that stay below the threshold pile up and write nothing. *)
Lemma scalar_calls_below_threshold reports :
  forall r : reporter,
    Z.of_nat (List.length (_events r) + List.length reports)
      < _flush_threshold r ->
    let r' := exec (map scalar_call reports) r in
    exists d,
      calls r' = (calls r ++ d)%list /\
      filter is_write_call d = [] /\
      List.length (_events r')
      = (List.length (_events r) + List.length reports)%nat.
Proof.
  induction reports as [|[[[title series] value] iter] reports IH];
    intros r H; cbv zeta.
  - exists []. cbn. rewrite app_nil_r, Nat.add_0_r. auto.
  - cbn [map exec]. rewrite report_scalar_strings, _report_eq. cbv zeta.
    cbn [List.length] in H.
    rewrite length_app. cbn [List.length].
    destruct (Z.geb_spec (Z.of_nat (List.length (_events r) + 1))
                (_flush_threshold r)) as [G|G]; [lia|].
    cbn [snd].
    match goal with |- context [exec _ ?r1] => destruct (IH r1) as [d Hd] end.
    { cbn. rewrite length_app. cbn [List.length]. lia. }
    cbv zeta in Hd. destruct Hd as (Hc & Hf & Hl).
    exists (Call_report
              (ScalarEvent (VStr (map_chars reserved_to_slash title))
                 (VStr (map_chars reserved_to_slash series)) value iter) :: d).
    split; [|split].
    + rewrite Hc. cbn. rewrite <- app_assoc. reflexivity.
    + cbn. exact Hf.
    + rewrite Hl. cbn. rewrite length_app. cbn [List.length]. lia.
Qed.

(** Any [report_*] calls but [report_image_plot_and_upload] that all
    return and stay below the threshold pile up and write nothing. *)
Lemma report_calls_below_threshold ops :
  forall r : reporter,
    forallb is_report ops = true ->
    forallb (fun op => negb (is_report_image_plot_and_upload op)) ops = true ->
    all_return ops r ->
    Z.of_nat (List.length (_events r) + List.length ops)
      < _flush_threshold r ->
    exists d,
      calls (exec ops r) = (calls r ++ d)%list /\
      filter is_write_call d = [] /\
      List.length (_events (exec ops r))
      = (List.length (_events r) + List.length ops)%nat.
Proof.
  induction ops as [|op ops IH]; intros r Hrep Hnot Hret Hlt.
  - exists []. cbn. rewrite app_nil_r, Nat.add_0_r. auto.
  - cbn [forallb] in Hrep, Hnot.
    apply andb_true_iff in Hrep as [Hrep1 Hrep].
    apply andb_true_iff in Hnot as [Hnot1 Hnot].
    apply negb_true_iff in Hnot1.
    cbn [all_return] in Hret. destruct Hret as [Hok Hret].
    cbn [exec].
    destruct (report_call_shape op r Hrep1 Hnot1) as [[e He]|(ev & _ & Hev)].
    + rewrite He in Hok. discriminate Hok.
    + rewrite Hev in Hret |- *. rewrite _report_eq in Hret |- *.
      cbv zeta in Hret |- *.
      cbn [List.length] in Hlt.
      rewrite length_app in Hret |- *. cbn [List.length] in Hret |- *.
      destruct (Z.geb_spec (Z.of_nat (List.length (_events r) + 1))
                  (_flush_threshold r)) as [G|G]; [lia|].
      cbn [snd] in Hret |- *.
      match goal with |- context [exec _ ?r1] =>
        destruct (IH r1 Hrep Hnot Hret) as (d & Hc & Hf & Hl) end.
      { cbn. rewrite length_app. cbn [List.length]. lia. }
      exists (Call_report ev :: d).
      split; [|split].
      * rewrite Hc. cbn. rewrite <- app_assoc. reflexivity.
      * cbn. exact Hf.
      * rewrite Hl. cbn. rewrite length_app. cbn [List.length]. lia.
Qed.

Lemma reserved_to_slash_settles (c : ascii) :
  reserved_to_slash (reserved_to_slash c) = reserved_to_slash c.
Proof.
  unfold reserved_to_slash.
  destruct (Ascii.eqb c "$" || Ascii.eqb c ".")%bool eqn:E;
    [reflexivity|rewrite E; reflexivity].
Qed.

(** A normalized name normalizes to itself. *)
Lemma normalize_name_settles (v v' : value) :
  _normalize_name v = Ok v' -> _normalize_name v' = Ok v'.
Proof.
  unfold _normalize_name at 1.
  destruct (negb (truthy v)) eqn:T.
  - intros [= <-]. unfold _normalize_name. rewrite T. reflexivity.
  - destruct v; try discriminate. intros [= <-].
    rewrite StringFacts.normalize_chars, StringFacts.normalize_name_str.
    rewrite StringFacts.map_chars_compose.
    f_equal. f_equal.
    apply StringFacts.map_chars_ext, reserved_to_slash_settles.
Qed.

(** [report_image_plot_and_upload] raises before it touches the
    reporter, or reports the image event and then either raises or
    reports the plot event. *)
Lemma report_image_plot_and_upload_shape (r : reporter) title series iter
    path matrix upload_uri history :
  let out := report_image_plot_and_upload title series iter path matrix
               upload_uri history r in
  (exists e, out = (Raise e, r)) \/
  (exists metric variant,
     _normalize_name title = Ok metric /\
     _normalize_name series = Ok variant /\
     let first := _report (ImageEvent matrix upload_uri path metric variant
                             iter history) r in
     ((exists e, fst out = Raise e) /\ snd out = snd first) \/
     (fst first = Ok tt /\
      exists chart,
        out = _report (PlotEvent metric variant (VStr (json_dumps chart)) iter)
                (snd first))).
Proof.
  cbv zeta.
  unfold report_image_plot_and_upload, bind, self, lift, raise.
  destruct (_ && _)%bool; [left; eexists; reflexivity|].
  destruct (negb _); [left; eexists; reflexivity|].
  destruct (_normalize_name title) as [metric|e] eqn:Et;
    [|left; eexists; reflexivity].
  destruct (_normalize_name series) as [variant|e] eqn:Es;
    [|left; eexists; reflexivity].
  destruct (get_target_full_upload_uri _ _ _) as [target|e];
    [|left; eexists; reflexivity].
  right. exists metric, variant. split; [reflexivity|]. split; [reflexivity|].
  cbv zeta.
  destruct (_report _ r) as [[[]|e] r1]; cbn [fst snd];
    [|left; split; [eexists; reflexivity|reflexivity]].
  destruct (title_slash_series title series) as [full_title|e];
    [|left; split; [eexists; reflexivity|reflexivity]].
  destruct (shape_or matrix 1 640) as [width|e];
    [|left; split; [eexists; reflexivity|reflexivity]].
  destruct (shape_or matrix 0 480) as [height|e];
    [|left; split; [eexists; reflexivity|reflexivity]].
  destruct (create_image_plot _ _ _ _) as [chart|e];
    [|left; split; [eexists; reflexivity|reflexivity]].
  right. split; [reflexivity|]. exists chart.
  unfold report_plot, bind, lift, ret.
  rewrite (normalize_name_settles _ _ Et), (normalize_name_settles _ _ Es).
  reflexivity.
Qed.

(** C1, amended.  Every [report_*] call other than
    [report_image_plot_and_upload] either raises before it touches the
    reporter or appends exactly one event; after the append, [_write] is
    invoked if and only if the buffer length has reached
    [flush_threshold] (so always when the threshold is 0).  When it is
    invoked and [write_events] returns, the call returns and the buffer
    is empty; when it is not invoked the call returns and the buffer has
    grown by exactly that event.  Hence a sequence of such calls that
    all return and stay below the threshold grows the buffer by the
    number of calls and writes nothing (in particular [report_scalar]
    calls with string names, fewer than the threshold, on an empty
    buffer).  [report_image_plot_and_upload] either raises before it
    touches the reporter, or reports the image event by that same
    append and test ([_report]); it then either raises, the reporter
    staying as that first report left it, or reports the plot event by
    the same append and test, so that a call that returns has reported
    two events. *)
Theorem report_writes_iff_threshold_reached :
  (forall (op : Op) (r : reporter),
     is_report op = true ->
     is_report_image_plot_and_upload op = false ->
     let out := run op r in
     let reached :=
       Z.of_nat (S (List.length (_events r))) >=? _flush_threshold r in
     (exists e, out = (Raise e, r)) \/
     (exists ev,
        hd_error (calls_since r (snd out)) = Some (Call_report ev) /\
        writes_between r (snd out) = (if reached then 1 else 0)%nat /\
        (if reached
         then match fst (write_events (_metrics r) (_events r ++ [ev])
                           (_async_enable r) (_storage_uri r)) with
              | Ok _ => fst out = Ok tt /\ _events (snd out) = []
              | Raise e => fst out = Raise e
              end
         else fst out = Ok tt /\
              _events (snd out) = (_events r ++ [ev])%list) /\
        (_flush_threshold r = 0 -> writes_between r (snd out) = 1%nat)))
  /\
  (forall (reports : list (string * string * value * Z)) (r : reporter),
     _events r = [] ->
     Z.of_nat (List.length reports) < _flush_threshold r ->
     let r' := exec (map scalar_call reports) r in
     List.length (_events r') = List.length reports /\
     writes_between r r' = 0%nat)
  /\
  (forall (ops : list Op) (r : reporter),
     forallb is_report ops = true ->
     forallb (fun op => negb (is_report_image_plot_and_upload op)) ops = true ->
     all_return ops r ->
     Z.of_nat (List.length (_events r) + List.length ops)
       < _flush_threshold r ->
     List.length (_events (exec ops r))
     = (List.length (_events r) + List.length ops)%nat /\
     writes_between r (exec ops r) = 0%nat)
  /\
  (forall (r : reporter) title series iter path matrix upload_uri history,
     let out := report_image_plot_and_upload title series iter path matrix
                  upload_uri history r in
     (exists e, out = (Raise e, r)) \/
     (exists metric variant,
        _normalize_name title = Ok metric /\
        _normalize_name series = Ok variant /\
        let first := _report (ImageEvent matrix upload_uri path metric variant
                                iter history) r in
        ((exists e, fst out = Raise e) /\ snd out = snd first) \/
        (fst first = Ok tt /\
         exists chart,
           out = _report (PlotEvent metric variant (VStr (json_dumps chart))
                            iter) (snd first))))
  /\
  (forall (ev : Event) (r : reporter),
     let out := _report ev r in
     let reached :=
       Z.of_nat (S (List.length (_events r))) >=? _flush_threshold r in
     hd_error (calls_since r (snd out)) = Some (Call_report ev) /\
     writes_between r (snd out) = (if reached then 1 else 0)%nat /\
     (if reached
      then match fst (write_events (_metrics r) (_events r ++ [ev])
                        (_async_enable r) (_storage_uri r)) with
           | Ok _ => fst out = Ok tt /\ _events (snd out) = []
           | Raise e => fst out = Raise e
           end
      else fst out = Ok tt /\ _events (snd out) = (_events r ++ [ev])%list)).
Proof.
  split; [|split; [|split; [|split]]].
  - intros op r Hrep Hnot out reached; subst out reached.
    destruct (report_call_shape op r Hrep Hnot) as [[e He]|(ev & _ & Hev)].
    + left. exists e. exact He.
    + right. exists ev. rewrite Hev.
      destruct (_report_outcome ev r) as (H1 & H2 & H3).
      repeat split; try assumption.
      intros H0. rewrite H2, H0.
      destruct (Z.geb_spec (Z.of_nat (S (List.length (_events r)))) 0);
        [reflexivity|lia].
  - intros reports r Hempty Hlt r'; subst r'.
    destruct (scalar_calls_below_threshold reports r) as (d & Hc & Hf & Hl).
    { rewrite Hempty. cbn. exact Hlt. }
    split.
    + rewrite Hl, Hempty. reflexivity.
    + unfold writes_between. rewrite (calls_since_app _ _ d Hc), Hf.
      reflexivity.
  - intros ops r Hrep Hnot Hret Hlt.
    destruct (report_calls_below_threshold ops r Hrep Hnot Hret Hlt)
      as (d & Hc & Hf & Hl).
    split; [exact Hl|].
    unfold writes_between. rewrite (calls_since_app _ _ d Hc), Hf.
    reflexivity.
  - intros r title series iter path matrix upload_uri history.
    apply report_image_plot_and_upload_shape.
  - intros ev r. apply _report_outcome.
Qed.

(** ** Every public call is made of elementary changes *)

Lemma steps_ret {A : Type} (a : A) : steps (Metrics := Metrics) (ret a).
Proof. intros r; apply moves_refl. Qed.

Lemma steps_raise {A : Type} (e : exn) :
  steps (Metrics := Metrics) (raise (A := A) e).
Proof. intros r; apply moves_refl. Qed.

Lemma steps_lift {A : Type} (x : Res A) : steps (Metrics := Metrics) (lift x).
Proof. intros r; apply moves_refl. Qed.

Lemma steps_self : steps (Metrics := Metrics) self.
Proof. intros r; apply moves_refl. Qed.

Lemma steps_bind {A B : Type} (c : Reporter.M Metrics A)
    (k : A -> Reporter.M Metrics B) :
  steps c -> (forall a, steps (k a)) -> steps (bind c k).
Proof.
  intros Hc Hk r. unfold bind.
  specialize (Hc r). destruct (c r) as [[a|e] r1]; cbn [snd] in *.
  - eapply moves_trans; [exact Hc|apply Hk].
  - exact Hc.
Qed.

Lemma steps_update (f : reporter -> reporter) :
  (forall r, moves r (f r)) -> steps (update f).
Proof. intros H r; apply H. Qed.

Lemma steps_called (c : Call) :
  is_write_events_call c = false -> steps (Metrics := Metrics) (called c).
Proof. intros H r; apply moves_call, H. Qed.

Create HintDb steps.
#[local] Hint Resolve steps_ret steps_raise steps_lift steps_self
  steps_called : steps.
#[local] Hint Constructors moves : steps.

Lemma steps__write : steps (Metrics := Metrics) _write.
Proof.
  intros r. destruct (_events r) as [|ev evs] eqn:E.
  - rewrite _write_empty by exact E. cbn [snd]. apply moves_call; reflexivity.
  - rewrite _write_nonempty by congruence. cbv zeta.
    set (r1 := with_metrics _ _).
    assert (H1 : moves r r1).
    { subst r1.
      eapply moves_trans; [apply (moves_call Call_write); reflexivity|].
      eapply moves_trans; [|apply moves_metrics].
      apply (moves_call_write_events (_async_enable r) (_storage_uri r)
               (with_call Call_write r)). }
    destruct (fst (write_events _ _ _ _)) as [x|e]; cbn [snd]; [|exact H1].
    eapply moves_trans; [|apply moves_clear].
    destruct (_async_enable r); [|exact H1].
    eapply moves_trans; [exact H1|].
    eapply moves_trans; [|apply moves_results].
    apply moves_call; reflexivity.
Qed.

Lemma steps__report (ev : Event) :
  well_formed ev -> steps (Metrics := Metrics) (_report ev).
Proof.
  intros Hwf r. rewrite _report_eq. cbv zeta.
  set (r1 := with_events _ _).
  assert (H1 : moves r r1).
  { subst r1.
    eapply moves_trans; [apply (moves_call (Call_report ev)); reflexivity|].
    apply (moves_append ev (with_call (Call_report ev) r) Hwf). }
  destruct (_ >=? _); [|exact H1].
  eapply moves_trans; [exact H1|apply steps__write].
Qed.

Lemma steps_flush : steps (Metrics := Metrics) flush.
Proof.
  unfold flush.
  apply steps_bind; [auto with steps|intros _].
  apply steps_bind; [apply steps__write|intros _].
  apply steps_bind.
  - unfold get_num_results. apply steps_bind; auto with steps.
  - intros n. destruct (n >? 0); [|auto with steps].
    unfold wait_for_results.
    apply steps_bind; [auto with steps|intros _].
    apply steps_update; auto with steps.
Qed.

Lemma steps_single_report (op : Op) :
  is_report op = true ->
  is_report_image_plot_and_upload op = false ->
  steps (run op).
Proof.
  intros Hrep Hnot r.
  destruct (report_call_shape op r Hrep Hnot) as [[e ->]|(ev & Hwf & ->)].
  - apply moves_refl.
  - apply steps__report, Hwf.
Qed.

Lemma steps_report_image_plot_and_upload title series iter path matrix
    upload_uri max_image_history :
  steps (report_image_plot_and_upload title series iter path matrix
           upload_uri max_image_history).
Proof.
  unfold report_image_plot_and_upload.
  apply steps_bind; [auto with steps|intros r0].
  destruct (_ && _)%bool; [auto with steps|].
  destruct (negb (count_not_none path matrix =? 1)) eqn:E; [auto with steps|].
  apply negb_false_iff, Z.eqb_eq in E.
  do 3 (apply steps_bind; [auto with steps|intros ?]).
  apply steps_bind; [apply steps__report; exact E|intros _].
  do 6 (apply steps_bind; [auto with steps|intros ?]).
  apply (steps_single_report (Report_plot _ _ _ _)); reflexivity.
Qed.

Lemma steps_run (op : Op) : steps (run op).
Proof.
  destruct (is_report op) eqn:Hrep.
  - destruct (is_report_image_plot_and_upload op) eqn:Himg.
    + destruct op; try discriminate.
      apply steps_report_image_plot_and_upload.
    + apply steps_single_report; assumption.
  - destruct op; try discriminate; cbn [run].
    + apply steps_flush.
    + intros r. apply moves_threshold. apply Z.le_max_l.
    + intros r. apply moves_async_enable.
    + intros r. unfold setattr; cbn [fset storage_uri].
      unfold _set_storage_uri, bind, self, lift, raise, update.
      destruct v; cbn; try apply moves_refl.
      destruct (strings_of _); cbn; auto with steps.
    + unfold __exit__. destruct (negb _); [apply steps_flush|auto with steps].
Qed.

Lemma moves_exec (ops : list Op) : forall r : reporter, moves r (exec ops r).
Proof.
  induction ops as [|op ops IH]; intros r; cbn [exec].
  - apply moves_refl.
  - eapply moves_trans; [apply steps_run|apply IH].
Qed.

(** ** What the elementary changes preserve *)

Lemma moves_keep_well_formed (r r' : reporter) :
  moves r r' -> all_well_formed r -> all_well_formed r'.
Proof.
  unfold all_well_formed.
  induction 1; cbn; intros [He Hc]; auto.
  - split; [exact He|].
    apply Forall_app; split; [exact Hc|].
    constructor; [|constructor]. destruct c; try exact I; discriminate.
  - split; [exact He|].
    apply Forall_app; split; [exact Hc|].
    constructor; [exact He|constructor].
  - split; [|exact Hc].
    apply Forall_app; split; [exact He|]. constructor; [assumption|constructor].
Qed.

Lemma moves_keep_threshold_nonneg (r r' : reporter) :
  moves r r' -> 0 <= _flush_threshold r -> 0 <= _flush_threshold r'.
Proof. induction 1; cbn; auto. Qed.

(** Apart from construction, the public interface keeps the threshold
    at or above 0, and the setter clamps. *)
Lemma run_keeps_threshold_nonneg (op : Op) (r : reporter) :
  0 <= _flush_threshold r -> 0 <= _flush_threshold (snd (run op r)).
Proof. apply moves_keep_threshold_nonneg, steps_run. Qed.

Lemma flush_threshold_setter_clamps (v : Z) (r : reporter) :
  setattr flush_threshold v r = (Ok tt, with_flush_threshold (Z.max 0 v) r)
  /\ 0 <= _flush_threshold (snd (setattr flush_threshold v r)).
Proof. split; [reflexivity|cbn; apply Z.le_max_l]. Qed.

Lemma init_threshold_as_given (m : Metrics) (n : Z) (a : bool) :
  _flush_threshold (__init__ m n a) = n.
Proof. reflexivity. Qed.

Lemma init_well_formed (m : Metrics) (n : Z) (a : bool) :
  all_well_formed (__init__ m n a).
Proof. split; constructor. Qed.

Lemma reachable_well_formed (r : reporter) :
  reachable r -> all_well_formed r.
Proof.
  intros (m & n & a & ops & ->).
  eapply moves_keep_well_formed; [apply moves_exec|apply init_well_formed].
Qed.

(** C7.  The validation failures of the public [report_*] calls are
    raised before any event is appended: [report_vector] with values
    that are not iterable, [report_plot] with a plot that is neither a
    string nor a dict, and [report_image_and_upload] (and
    [report_image_plot_and_upload]) with zero or both of path and matrix
    raise [ValueError] and leave the reporter, its buffer included,
    exactly as it was.  So in every reachable state the buffer holds
    well-formed events only, and only such events were ever handed to
    [write_events]. *)
Theorem validation_precedes_buffering :
  (forall (r : reporter) title series values iter,
     is_iterable values = false ->
     report_vector title series values iter r
     = (Raise (ValueError "values: expected an iterable"), r))
  /\
  (forall (r : reporter) title series plot iter,
     is_str plot = false -> is_dict plot = false ->
     report_plot title series plot iter r
     = (Raise (ValueError "Plot should be a string or a dict"), r))
  /\
  (forall (r : reporter) title series iter path matrix upload_uri history,
     count_not_none path matrix <> 1 ->
     (exists msg,
        report_image_and_upload title series iter path matrix upload_uri
          history r = (Raise (ValueError msg), r)) /\
     (exists msg,
        report_image_plot_and_upload title series iter path matrix upload_uri
          history r = (Raise (ValueError msg), r)))
  /\
  (forall r : reporter,
     reachable r ->
     Forall well_formed (_events r) /\
     (forall events async uri,
        In (Call_write_events events async uri) (calls r) ->
        Forall well_formed events)).
Proof.
  split; [|split; [|split]].
  - intros r title series values iter H.
    unfold report_vector. rewrite H. reflexivity.
  - intros r title series plot iter Hs Hd.
    unfold report_plot, bind, raise.
    destruct plot; try discriminate; reflexivity.
  - intros r title series iter path matrix upload_uri history H.
    apply Z.eqb_neq in H.
    unfold report_image_and_upload, report_image_plot_and_upload, bind, self,
      raise.
    rewrite H. cbn [negb].
    split.
    + destruct (_ && _)%bool; eexists; reflexivity.
    + destruct (_ && _)%bool; eexists; reflexivity.
  - intros r Hr. destruct (reachable_well_formed r Hr) as [He Hc].
    split; [exact He|].
    intros events async uri Hin.
    rewrite Forall_forall in Hc. exact (Hc _ Hin).
Qed.

(** ** [flush] and the scope exit *)

Lemma _write_calls (r : reporter) :
  exists d,
    calls (snd (_write r)) = (calls r ++ d)%list /\
    filter is_flush_call d = [] /\
    (_events r = [] -> filter is_write_events_call d = []).
Proof.
  destruct (_events r) as [|ev evs] eqn:E.
  - rewrite _write_empty by exact E.
    exists [Call_write]. repeat split.
  - rewrite _write_nonempty by congruence. cbv zeta.
    destruct (fst (write_events _ _ _ _)) as [x|e]; cbn [snd].
    + destruct (_async_enable r); eexists;
        (split; [cbn; repeat rewrite <- app_assoc; cbn [app]; reflexivity|]);
        (split; [reflexivity|discriminate]).
    + eexists.
      split; [cbn; repeat rewrite <- app_assoc; cbn [app]; reflexivity|].
      split; [reflexivity|discriminate].
Qed.

#[local] Arguments _write : simpl never.

Lemma flush_eq (r : reporter) :
  flush r =
  let out := _write (with_call Call_flush r) in
  match fst out with
  | Ok _ =>
      if Z.of_nat (List.length (_async_results (snd out))) >? 0
      then (Ok tt,
            with_async_results []
              (with_call Call_wait_for_results (snd out)))
      else (Ok tt, snd out)
  | Raise e => (Raise e, snd out)
  end.
Proof.
  unfold flush, bind, called, update, get_num_results, wait_for_results,
    self, ret. cbn.
  destruct (_write (with_call Call_flush r)) as [[[]|e] r1]; cbn;
    [|reflexivity].
  destruct (_ >? _); reflexivity.
Qed.

Lemma flush_calls (r : reporter) :
  exists d,
    calls (snd (flush r)) = (calls r ++ Call_flush :: d)%list /\
    filter is_flush_call d = [] /\
    (_events r = [] -> filter is_write_events_call d = []).
Proof.
  rewrite flush_eq. cbv zeta.
  destruct (_write_calls (with_call Call_flush r)) as (d & Hc & Hf & Hw).
  cbn [calls with_call _events] in Hc, Hw.
  rewrite <- app_assoc in Hc. cbn [app] in Hc.
  destruct (fst (_write (with_call Call_flush r))); cbn [snd].
  - destruct (_ >? _); cbn [snd].
    + exists (d ++ [Call_wait_for_results])%list. cbn. rewrite Hc.
      rewrite <- app_assoc. cbn [app].
      split; [reflexivity|].
      rewrite !filter_app, Hf. split; [reflexivity|].
      intros E. rewrite (Hw E). reflexivity.
    + exists d. auto.
  - exists d. auto.
Qed.

Lemma flush_on_empty_buffer (r : reporter) :
  _events r = [] ->
  fst (flush r) = Ok tt /\
  _events (snd (flush r)) = [] /\
  _metrics (snd (flush r)) = _metrics r /\
  (_async_results r = [] ->
   snd (flush r) = with_call Call_write (with_call Call_flush r)).
Proof.
  intros E. rewrite flush_eq. cbv zeta.
  rewrite _write_empty by exact E. cbn [fst snd].
  destruct (_ >? _) eqn:G; cbn; repeat split; auto.
  intros Ha. cbn in G. rewrite Ha in G. discriminate G.
Qed.

(** C4.  [__exit__] calls [flush] if and only if the scope is left
    normally.  On a normal exit ([exc_type] is [None]) it is exactly one
    [flush]; with an empty buffer that flush writes nothing
    ([write_events] is not called, the buffer stays empty, the manager
    is untouched; with no asynchronous result pending, nothing but the
    call log changes).  On an exit caused by an exception no flush occurs
    and the reporter, its buffer included, is left as it was. *)
Theorem exit_flushes_iff_left_normally :
  forall exc_type exc_val exc_tb (r : reporter),
    let out := __exit__ exc_type exc_val exc_tb r in
    (exc_type = None ->
       out = flush r /\ flushes_between r (snd out) = 1%nat)
    /\
    (exc_type = None -> _events r = [] ->
       fst out = Ok tt /\
       write_events_between r (snd out) = 0%nat /\
       _events (snd out) = [] /\
       _metrics (snd out) = _metrics r /\
       (_async_results r = [] ->
        snd out = with_call Call_write (with_call Call_flush r)))
    /\
    (exc_type <> None ->
       out = (Ok tt, r) /\
       flushes_between r (snd out) = 0%nat /\
       _events (snd out) = _events r).
Proof.
  intros exc_type exc_val exc_tb r out; subst out.
  split; [|split].
  - intros ->. cbn [__exit__ is_not_none negb].
    split; [reflexivity|].
    destruct (flush_calls r) as (d & Hc & Hf & _).
    unfold flushes_between. rewrite (calls_since_app _ _ _ Hc).
    cbn. rewrite Hf. reflexivity.
  - intros -> E. cbn [__exit__ is_not_none negb].
    destruct (flush_on_empty_buffer r E) as (H1 & H2 & H3 & H4).
    destruct (flush_calls r) as (d & Hc & _ & Hw).
    repeat split; try assumption.
    unfold write_events_between. rewrite (calls_since_app _ _ _ Hc).
    cbn. rewrite (Hw E). reflexivity.
  - intros H. destruct exc_type as [ty|]; [|congruence].
    cbn [__exit__ is_not_none negb]. unfold ret. cbn [snd].
    repeat split.
    unfold flushes_between. rewrite calls_since_refl. reflexivity.
Qed.

(** ** The image-and-upload entry checks *)

Lemma normalize_name_raises (v : value) (e : exn) :
  _normalize_name v = Raise e -> e = AttributeError "replace".
Proof.
  unfold _normalize_name. destruct (negb (truthy v)); [discriminate|].
  destruct v; intros [= <-]; reflexivity.
Qed.

Lemma _report_changes_reporter (ev : Event) (r : reporter) (x : Res unit) :
  _report ev r <> (x, r).
Proof.
  intros H. destruct (_report_outcome ev r) as (Hhd & _).
  rewrite H in Hhd. cbn [snd] in Hhd.
  rewrite calls_since_refl in Hhd. discriminate Hhd.
Qed.

(** With an upload destination and exactly one of path and matrix,
    [report_image_and_upload] normalizes the names and reports the image
    event. *)
Lemma report_image_and_upload_accepts (r : reporter) title series iter path
    matrix upload_uri history :
  (negb (truthy (_storage_uri r)) && negb (truthy upload_uri))%bool = false ->
  count_not_none path matrix = 1 ->
  report_image_and_upload title series iter path matrix upload_uri history r
  = match _normalize_name title, _normalize_name series with
    | Ok metric, Ok variant =>
        _report (ImageEvent matrix upload_uri path metric variant iter
                   history) r
    | Raise e, _ => (Raise e, r)
    | Ok _, Raise e => (Raise e, r)
    end.
Proof.
  intros Hd Hc. unfold report_image_and_upload, bind, self, lift.
  rewrite Hd. apply Z.eqb_eq in Hc. rewrite Hc. cbn [negb].
  destruct (_normalize_name title); [|reflexivity].
  destruct (_normalize_name series); reflexivity.
Qed.

(** C6, amended.  [report_image_and_upload] checks the upload
    destination first: it raises the configuration failure if and only
    if the per-call [upload_uri] and the stored [storage_uri] are both
    falsy ([None] or empty), whatever path and matrix are.  With a
    destination, it raises the validation failure if and only if zero or
    both of path and matrix are supplied.  With a destination and
    exactly one of them, neither failure is raised and, the names being
    normalized, the image event is reported to the buffer.
    [report_image_plot_and_upload] makes the same two checks in the same
    order. *)
Theorem image_upload_checks_destination_then_source :
  forall (r : reporter) title series iter path matrix upload_uri history,
    let out := report_image_and_upload title series iter path matrix
                 upload_uri history r in
    let out' := report_image_plot_and_upload title series iter path matrix
                  upload_uri history r in
    let no_destination :=
      (negb (truthy (_storage_uri r)) && negb (truthy upload_uri))%bool in
    let configuration_failure :=
      ValueError "Upload configuration is required (use setup_upload())" in
    let validation_failure :=
      ValueError "Expected only one of [filename, matrix]" in
    (out = (Raise configuration_failure, r) <-> no_destination = true)
    /\
    (out = (Raise validation_failure, r) <->
       no_destination = false /\ count_not_none path matrix <> 1)
    /\
    (no_destination = false -> count_not_none path matrix = 1 ->
     forall metric variant,
       _normalize_name title = Ok metric ->
       _normalize_name series = Ok variant ->
       let ev := ImageEvent matrix upload_uri path metric variant iter
                   history in
       out = _report ev r /\
       hd_error (calls_since r (snd out)) = Some (Call_report ev))
    /\
    (no_destination = true -> out' = (Raise configuration_failure, r))
    /\
    (no_destination = false -> count_not_none path matrix <> 1 ->
     out' = (Raise validation_failure, r)).
Proof.
  intros r title series iter path matrix upload_uri history.
  cbv zeta.
  assert (Hcfg : (negb (truthy (_storage_uri r)) && negb (truthy upload_uri))%bool
                 = true ->
                 report_image_and_upload title series iter path matrix
                   upload_uri history r
                 = (Raise (ValueError
                      "Upload configuration is required (use setup_upload())"),
                    r)).
  { intros H. unfold report_image_and_upload, bind, self, raise.
    rewrite H. reflexivity. }
  assert (Hval : (negb (truthy (_storage_uri r)) && negb (truthy upload_uri))%bool
                 = false -> count_not_none path matrix <> 1 ->
                 report_image_and_upload title series iter path matrix
                   upload_uri history r
                 = (Raise (ValueError "Expected only one of [filename, matrix]"),
                    r)).
  { intros H Hc. apply Z.eqb_neq in Hc.
    unfold report_image_and_upload, bind, self, raise.
    rewrite H, Hc. reflexivity. }
  assert (Hacc := report_image_and_upload_accepts r title series iter path
                    matrix upload_uri history).
  assert (Hno : forall msg,
             (negb (truthy (_storage_uri r)) && negb (truthy upload_uri))%bool
             = false ->
             count_not_none path matrix = 1 ->
             report_image_and_upload title series iter path matrix upload_uri
               history r <> (Raise (ValueError msg), r)).
  { intros msg Hd Hc. rewrite (Hacc Hd Hc).
    destruct (_normalize_name title) as [metric|e] eqn:Et.
    - destruct (_normalize_name series) as [variant|e] eqn:Es.
      + apply _report_changes_reporter.
      + rewrite (normalize_name_raises _ _ Es). discriminate.
    - rewrite (normalize_name_raises _ _ Et). discriminate. }
  split; [|split; [|split; [|split]]].
  - split; [|exact Hcfg].
    intros H.
    destruct (negb (truthy (_storage_uri r)) && negb (truthy upload_uri))%bool
      eqn:Hd; [reflexivity|exfalso].
    destruct (Z.eq_dec (count_not_none path matrix) 1) as [Hc|Hc].
    + exact (Hno _ eq_refl Hc H).
    + rewrite (Hval eq_refl Hc) in H. discriminate H.
  - split.
    + intros H.
      destruct (negb (truthy (_storage_uri r)) && negb (truthy upload_uri))%bool
        eqn:Hd.
      * rewrite (Hcfg eq_refl) in H. discriminate H.
      * split; [reflexivity|]. intros Hc. exact (Hno _ eq_refl Hc H).
    + intros [Hd Hc]. exact (Hval Hd Hc).
  - intros Hd Hc metric variant Et Es.
    rewrite (Hacc Hd Hc), Et, Es.
    split; [reflexivity|]. apply _report_outcome.
  - intros H. unfold report_image_plot_and_upload, bind, self, raise.
    rewrite andb_comm in H. rewrite H. reflexivity.
  - intros H Hc. apply Z.eqb_neq in Hc.
    unfold report_image_plot_and_upload, bind, self, raise.
    rewrite andb_comm in H. rewrite H, Hc. reflexivity.
Qed.

(** ** The storage URI *)

Lemma truthy_str (s : string) : truthy (VStr s) = negb (s =? EmptyString)%string.
Proof. reflexivity. Qed.

(** C10.  Assigning [v] to [storage_uri] does not store [v] as given:
    what is stored is [v] without its trailing slashes, joined by a
    slash with the manager's [storage_key_prefix], an empty component
    (or a [None] prefix) being left out.  [storage_uri] has no getter:
    reading it raises [AttributeError]. *)
Theorem storage_uri_stores_stripped_and_prefixed :
  forall (r : reporter) (v key_prefix : string),
    (storage_key_prefix (_metrics r) = VStr key_prefix \/
     storage_key_prefix (_metrics r) = VNone /\ key_prefix = EmptyString) ->
    let base := str_rstrip "/" v in
    setattr storage_uri (VStr v) r
    = (Ok tt, with_storage_uri (VStr (upload_destination base key_prefix)) r)
    /\ (exists k, v = base ++ slashes k)
    /\ (forall t, base <> t ++ "/")
    /\ fget (storage_uri (Metrics := Metrics)) = None
    /\ getattr storage_uri r = (Raise (AttributeError "unreadable attribute"), r).
Proof.
  intros r v key_prefix H base; subst base.
  split; [|split; [|split; [|split]]]; try reflexivity.
  - unfold setattr; cbn [fset storage_uri].
    unfold _set_storage_uri, bind, self, lift, update, upload_destination.
    cbn [filter]. rewrite truthy_str.
    destruct H as [H|[H ->]]; rewrite H.
    + rewrite truthy_str.
      destruct (str_rstrip "/" v =? EmptyString)%string;
        destruct (key_prefix =? EmptyString)%string eqn:Ek; cbn;
        try reflexivity.
      apply String.eqb_eq in Ek. subst. reflexivity.
    + cbn [truthy].
      destruct (str_rstrip "/" v =? EmptyString)%string; cbn; reflexivity.
  - apply StringFacts.rstrip_slash_decompose.
  - intros t. apply StringFacts.rstrip_slash_no_trailing.
Qed.

End Facts.

End ReporterFacts.

(* ===================================================================== *)
(** * The reporter run on concrete collaborators                         *)
(* ===================================================================== *)

Module ReporterRuns.
Import Reporter Readings Demo ReporterFacts.

(** C2, as stated, fails: when [write_events] raises (here the
    dispatcher's [SendError] for a 404), [_write] lets the exception
    through and the buffer keeps its event. *)
Lemma write_keeps_buffer_when_write_events_raises :
  (let r := with_events [ScalarEvent (VStr "loss") (VStr "train")
                           (VFloat 5 (-1)) 1]
              (__init__ rejecting 10 false) in
   fst (_write r)
   = Raise (SendError not_found_response "Action failed 404 Not Found")
   /\ _events (snd (_write r)) = _events r
   /\ _events r <> [])
  /\ ~ @write_always_clears ScriptedMetrics _.
Proof.
  split.
  - repeat split. discriminate.
  - intros H.
    specialize (H (with_events [ScalarEvent (VStr "loss") (VStr "train")
                                  (VFloat 5 (-1)) 1]
                     (__init__ rejecting 10 false))).
    discriminate H.
Qed.

(** C2 on a healthy manager with [async_enable]: the buffer is handed
    over and cleared, and the result is registered. *)
Lemma write_hands_over_buffer_and_clears_witness :
  let r := with_events [ScalarEvent (VStr "loss") (VStr "train")
                          (VFloat 5 (-1)) 1]
             (__init__ healthy 10 true) in
  _events r <> [] /\
  _events (snd (_write r)) = [] /\
  _async_results (snd (_write r)) = [NoResult].
Proof.
  cbv zeta. split; [discriminate|].
  pose proof (proj2 (write_hands_over_buffer_and_clears
                       (with_events [ScalarEvent (VStr "loss") (VStr "train")
                                       (VFloat 5 (-1)) 1]
                          (__init__ healthy 10 true)))
                ltac:(discriminate)) as [_ H].
  cbn in H. destruct H as (_ & He & _ & Ha & _).
  split; [exact He|exact Ha].
Defined.

(** The accepted loss: when [write_events] returns a failed response
    instead of raising, [_write] returns normally and the events are
    gone from the buffer. *)
Example write_clears_buffer_on_failed_response :
  let lossy := mkScripted VNone [Ok (CallResult not_found_response)] in
  let r := with_events [ScalarEvent (VStr "loss") (VStr "train")
                          (VFloat 5 (-1)) 1]
             (__init__ lossy 10 false) in
  fst (_write r) = Ok tt /\ _events (snd (_write r)) = [].
Proof. split; reflexivity. Qed.

(** C1, as stated, fails: one [report_image_plot_and_upload] call below
    the threshold returns, writes nothing, and leaves two events in a
    buffer that was empty. *)
Lemma report_image_plot_and_upload_appends_two :
  (let r := __init__ healthy 10 false in
   let out := run (Report_image_plot_and_upload (VStr "sample") (VStr "img") 1
                     (Some "/tmp/a.png") None (VStr "s3://bucket") None) r in
   fst out = Ok tt /\
   writes_between r (snd out) = 0%nat /\
   _events r = [] /\
   List.length (_events (snd out)) = 2%nat)
  /\ ~ every_report_call_appends_one (Metrics := ScriptedMetrics).
Proof.
  split.
  - repeat split.
  - intros H.
    specialize (H (Report_image_plot_and_upload (VStr "sample") (VStr "img") 1
                     (Some "/tmp/a.png") None (VStr "s3://bucket") None)
                  (__init__ healthy 10 false) eq_refl eq_refl eq_refl).
    discriminate H.
Qed.

(** C1 on two [report_scalar] calls with threshold 3: two events, no
    write. *)
Lemma report_writes_iff_threshold_reached_witness :
  let r := __init__ healthy 3 false in
  let r' := exec (map scalar_call
                    [("loss", "train", VFloat 5 (-1), 1);
                     ("loss", "train", VFloat 4 (-1), 2)]) r in
  List.length (_events r') = 2%nat /\ writes_between r r' = 0%nat.
Proof.
  cbv zeta.
  apply (proj1 (proj2 (report_writes_iff_threshold_reached
                         (Metrics := ScriptedMetrics)))
           [("loss", "train", VFloat 5 (-1), 1);
            ("loss", "train", VFloat 4 (-1), 2)]
           (__init__ healthy 3 false)).
  - reflexivity.
  - reflexivity.
Defined.

(** The scenario of the specification: threshold 3, two reports are
    buffered, the third one triggers the write and empties the buffer. *)
Example threshold_three_scenario :
  let r0 := __init__ healthy 3 false in
  let r1 := snd (report_scalar (VStr "loss") (VStr "train") (VFloat 5 (-1)) 1 r0) in
  let r2 := snd (report_scalar (VStr "loss") (VStr "train") (VFloat 4 (-1)) 2 r1) in
  let r3 := snd (report_scalar (VStr "loss") (VStr "train") (VFloat 3 (-1)) 3 r2) in
  List.length (_events r2) = 2%nat /\ writes_between r0 r2 = 0%nat /\
  List.length (_events r3) = 0%nat /\ writes_between r2 r3 = 1%nat /\
  write_events_between r2 r3 = 1%nat.
Proof. repeat split. Qed.

(** C4 on a reporter with an empty buffer, left normally. *)
Lemma exit_flushes_iff_left_normally_witness :
  let r := __init__ healthy 10 false in
  let out := __exit__ None None None r in
  out = flush r /\ flushes_between r (snd out) = 1%nat.
Proof.
  cbv zeta.
  apply (proj1 (exit_flushes_iff_left_normally None None None
                  (__init__ healthy 10 false))).
  reflexivity.
Defined.

(** C6, as stated, fails: with neither path nor matrix, but also no
    upload destination, the call raises the configuration failure and
    not the validation failure (and with exactly one of them and no
    destination it raises as well). *)
Lemma missing_destination_masks_validation_failure :
  (let r := __init__ healthy 10 false in
   count_not_none None None <> 1 /\
   report_image_and_upload (VStr "sample") (VStr "img") 1 None None VNone
     None r
   = (Raise (ValueError "Upload configuration is required (use setup_upload())"),
      r) /\
   count_not_none (Some "/tmp/a.png") None = 1 /\
   report_image_and_upload (VStr "sample") (VStr "img") 1 (Some "/tmp/a.png")
     None VNone None r
   = (Raise (ValueError "Upload configuration is required (use setup_upload())"),
      r))
  /\ ~ validation_failure_iff_not_exactly_one (Metrics := ScriptedMetrics).
Proof.
  split.
  - split; [discriminate|repeat split].
  - intros H.
    specialize (H (__init__ healthy 10 false) (VStr "sample") (VStr "img") 1
                  None None VNone None).
    destruct H as [_ H].
    assert (N : count_not_none None None <> 1) by discriminate.
    specialize (H N). discriminate H.
Qed.

(** C6 with a per-call destination and neither path nor matrix: the
    validation failure. *)
Lemma image_upload_checks_destination_then_source_witness :
  let r := __init__ healthy 10 false in
  report_image_and_upload (VStr "sample") (VStr "img") 1 None None
    (VStr "s3://bucket") None r
  = (Raise (ValueError "Expected only one of [filename, matrix]"), r).
Proof.
  cbv zeta.
  apply (proj1 (proj2 (image_upload_checks_destination_then_source
                         (__init__ healthy 10 false) (VStr "sample")
                         (VStr "img") 1 None None (VStr "s3://bucket") None))).
  split; [reflexivity|discriminate].
Defined.

(** C7 on a number passed as the values of a vector. *)
Lemma validation_precedes_buffering_witness :
  let r := __init__ healthy 10 false in
  report_vector (VStr "hist") (VStr "w") (VInt 3) 1 r
  = (Raise (ValueError "values: expected an iterable"), r).
Proof.
  cbv zeta.
  apply (proj1 (validation_precedes_buffering (Metrics := ScriptedMetrics))).
  reflexivity.
Defined.

(** C8.  [__init__] stores the threshold it is given, unclamped: a
    reporter built with [flush_threshold=-1] is a reachable state whose
    [flush_threshold] reads -1, where the setter would have stored 0. *)
Theorem init_stores_negative_threshold :
  (let r := __init__ healthy (-1) false in
   reachable r /\
   _flush_threshold r = -1 /\
   fst (getattr flush_threshold r) = Ok (-1) /\
   _flush_threshold (snd (setattr flush_threshold (-1) r)) = 0)
  /\ ~ threshold_never_negative (Metrics := ScriptedMetrics).
Proof.
  assert (R : reachable (__init__ healthy (-1) false)).
  { exists healthy, (-1), false, []. reflexivity. }
  split.
  - repeat split. exact R.
  - intros H. specialize (H _ R). cbn in H. lia.
Qed.

(** C10 on a bucket URI with a trailing slash and the key prefix
    ["exp"]. *)
Lemma storage_uri_stores_stripped_and_prefixed_witness :
  let r := __init__ (mkScripted (VStr "exp") []) 10 false in
  setattr storage_uri (VStr "s3://bucket/") r
  = (Ok tt, with_storage_uri (VStr "s3://bucket/exp") r).
Proof.
  cbv zeta.
  apply (storage_uri_stores_stripped_and_prefixed
           (__init__ (mkScripted (VStr "exp") []) 10 false)
           "s3://bucket/" "exp").
  left. reflexivity.
Defined.

End ReporterRuns.

(* ===================================================================== *)
(** * The dispatcher loop as a whole                                     *)
(* ===================================================================== *)

Module DispatcherLoop.
Import InterfaceBase Readings DispatcherFacts.

(** An outcome that is not retried ends [_send] there and then. *)
Lemma send_decided_by (o : Outcome) (rest : Session) req ignore_errors
    raise_on_errors log async_enable w :
  retried ignore_errors log o = false ->
  let out := _send (o :: rest) req ignore_errors raise_on_errors log
               async_enable w in
  fst out <> Resending /\
  requests_issued (snd out) = S (requests_issued w) /\
  fst out = fst (_send [o] req ignore_errors raise_on_errors log async_enable
                   wire0).
Proof.
  intros H. cbv zeta. cbn [_send].
  destruct o as [res|x|e]; cbn [retried] in H.
  - destruct (in_200_202 res || ignore_errors)%bool; cbn [negb andb] in H.
    + cbn [fst snd]. rewrite requests_issued_issue.
      repeat split. discriminate.
    + apply negb_false_iff in H. rewrite H.
      destruct raise_on_errors; cbn [fst snd];
        rewrite requests_issued_log_if, requests_issued_issue;
        repeat split; discriminate.
  - subst log. cbn [fst snd]. rewrite requests_issued_issue.
    repeat split. discriminate.
  - cbn [fst snd]. rewrite requests_issued_issue.
    repeat split. discriminate.
Qed.

(** X1.  The retry loop passes over every retried outcome with one more
    request and stops at the first outcome that is not retried: that
    outcome alone decides what [_send] returns or raises, and the number
    of requests issued is the number of retried outcomes plus one. *)
Theorem send_ends_at_first_decisive_outcome :
  forall (pre : Session) (o : Outcome) (rest : Session) req ignore_errors
         raise_on_errors log async_enable w,
    forallb (retried ignore_errors log) pre = true ->
    retried ignore_errors log o = false ->
    let out := _send (pre ++ o :: rest)%list req ignore_errors raise_on_errors
                 log async_enable w in
    fst out <> Resending /\
    requests_issued (snd out) = (requests_issued w + List.length pre + 1)%nat /\
    fst out = fst (_send [o] req ignore_errors raise_on_errors log
                     async_enable wire0).
Proof.
  intros pre o rest req ie roe log ae w Hpre Ho. cbv zeta.
  destruct (send_passes_over_retried pre (o :: rest) req ie roe log ae Hpre w)
    as (w' & Hw & Hn).
  rewrite Hw.
  destruct (send_decided_by o rest req ie roe log ae w' Ho) as (H1 & H2 & H3).
  split; [exact H1|]. split; [|exact H3].
  rewrite H2, Hn. lia.
Qed.

(** Two 503 answers, then a 404: three requests and a [SendError]. *)
Lemma send_ends_at_first_decisive_outcome_witness :
  let out := _send [Responds Demo.unavailable_response;
                    Responds Demo.unavailable_response;
                    Responds Demo.not_found_response;
                    Responds Demo.ok_response]
               Demo.add_request false true true false wire0 in
  fst out <> Resending /\
  requests_issued (snd out) = 3%nat /\
  fst out = fst (_send [Responds Demo.not_found_response] Demo.add_request
                   false true true false wire0).
Proof.
  exact (send_ends_at_first_decisive_outcome
           [Responds Demo.unavailable_response;
            Responds Demo.unavailable_response]
           (Responds Demo.not_found_response)
           [Responds Demo.ok_response]
           Demo.add_request false true true false wire0 eq_refl eq_refl).
Defined.

(** Where an exception leaving [_send] comes from: the transport
    raised it (and it is not a [BaseHTTPError]); or no logger was passed
    and the handler of a [BaseHTTPError] failed on [log.error]; or it is
    the [SendError] for a response the transport gave, with
    [raise_on_errors] true, [ignore_errors] false and a result code that
    is at most 500 and neither 200 nor 202. *)
Lemma send_raised_origin :
  forall (session : Session) req ignore_errors raise_on_errors log
         async_enable w e,
    fst (_send session req ignore_errors raise_on_errors log async_enable w)
    = Raised e ->
    In (RaisesOther e) session
    \/ (log = false /\ e = AttributeError "error" /\
        exists x, In (RaisesBaseHTTPError x) session)
    \/ (raise_on_errors = true /\ ignore_errors = false /\
        exists res,
          In (Responds res) session /\
          e = SendError res (error_msg req res) /\
          result_code (meta res) <= 500 /\
          result_code (meta res) <> 200 /\
          result_code (meta res) <> 202).
Proof.
  induction session as [|o session IH]; intros req ie roe log ae w e H.
  - discriminate H.
  - cbn [_send] in H.
    assert (Next : forall w',
               fst (_send session req ie roe log ae w') = Raised e ->
               In (RaisesOther e) (o :: session)
               \/ (log = false /\ e = AttributeError "error" /\
                   exists x, In (RaisesBaseHTTPError x) (o :: session))
               \/ (roe = true /\ ie = false /\
                   exists res,
                     In (Responds res) (o :: session) /\
                     e = SendError res (error_msg req res) /\
                     result_code (meta res) <= 500 /\
                     result_code (meta res) <> 200 /\
                     result_code (meta res) <> 202)).
    { intros w' H'.
      destruct (IH _ _ _ _ _ _ _ H') as [G|[(G1 & G2 & x & G3)|(G1 & G2 & res & G3 & G4)]].
      - left. now right.
      - right; left. repeat split; try assumption. exists x. now right.
      - right; right. repeat split; try assumption.
        exists res. split; [now right|assumption]. }
    destruct o as [res|x|e'].
    + destruct (in_200_202 res || ie)%bool eqn:E; [discriminate H|].
      destruct (result_code (meta res) <=? 500) eqn:L.
      * destruct roe; [|discriminate H].
        cbn [fst] in H. injection H as <-.
        apply orb_false_iff in E as [E1 E2].
        right; right. repeat split; try assumption.
        exists res. split; [now left|]. split; [reflexivity|].
        split; [now apply Z.leb_le|].
        split; intros C;
          (assert (in_200_202 res = true) by (apply in_200_202_iff; tauto));
          congruence.
      * exact (Next _ H).
    + destruct log.
      * exact (Next _ H).
      * cbn [fst] in H. injection H as <-.
        right; left. repeat split. exists x. now left.
    + cbn [fst] in H. injection H as <-. left. now left.
Qed.

(** X2.  An exception leaves [_send] only if the transport raised it
    (and it is not a [BaseHTTPError]), or no logger was passed and the
    handler of a [BaseHTTPError] failed on [log.error], or it is the
    [SendError] for a response the transport gave, with
    [raise_on_errors] true, [ignore_errors] false and a result code that
    is at most 500 and neither 200 nor 202.  Through [send], which
    always has a logger, a [BaseHTTPError] never surfaces in any form. *)
Theorem send_raises_only_what_it_must :
  (forall (session : Session) req ignore_errors raise_on_errors log
          async_enable w e,
     fst (_send session req ignore_errors raise_on_errors log async_enable w)
     = Raised e ->
     In (RaisesOther e) session
     \/ (log = false /\ e = AttributeError "error" /\
         exists x, In (RaisesBaseHTTPError x) session)
     \/ (raise_on_errors = true /\ ignore_errors = false /\
         exists res,
           In (Responds res) session /\
           e = SendError res (error_msg req res) /\
           result_code (meta res) <= 500 /\
           result_code (meta res) <> 200 /\
           result_code (meta res) <> 202))
  /\
  (forall (session : Session) req ignore_errors raise_on_errors async_enable
          w e,
     fst (send session req ignore_errors raise_on_errors async_enable w)
     = Raised e ->
     In (RaisesOther e) session
     \/ (raise_on_errors = true /\ ignore_errors = false /\
         exists res,
           In (Responds res) session /\
           e = SendError res (error_msg req res) /\
           result_code (meta res) <= 500)).
Proof.
  split.
  - exact send_raised_origin.
  - intros session req ie roe ae w e H. unfold send in H.
    destruct (send_raised_origin _ _ _ _ _ _ _ _ H)
      as [G|[(G & _)|(G1 & G2 & res & G3 & G4 & G5 & _)]].
    + now left.
    + discriminate G.
    + right. repeat split; try assumption. exists res. auto.
Qed.

(** A 404 rejected through [send] with [raise_on_errors]. *)
Lemma send_raises_only_what_it_must_witness :
  let e := SendError Demo.not_found_response
             (error_msg Demo.add_request Demo.not_found_response) in
  let session := [Responds Demo.not_found_response] in
  In (RaisesOther e) session
  \/ (true = true /\ false = false /\
      exists res,
        In (Responds res) session /\
        e = SendError res (error_msg Demo.add_request res) /\
        result_code (meta res) <= 500).
Proof.
  exact (proj2 send_raises_only_what_it_must
           [Responds Demo.not_found_response]
           Demo.add_request false true false wire0
           (SendError Demo.not_found_response
              (error_msg Demo.add_request Demo.not_found_response))
           eq_refl).
Defined.

(** X3.  A response [_send] returns is one the transport gave, and it is
    a success (200 or 202), or errors are ignored, or it is a rejection
    of at most 500 returned because [raise_on_errors] is false: a
    response above 500 is never returned unless [ignore_errors] is
    true. *)
Theorem send_returns_only_settled_responses :
  forall (session : Session) req ignore_errors raise_on_errors log
         async_enable w res,
    fst (_send session req ignore_errors raise_on_errors log async_enable w)
    = Returned res ->
    In (Responds res) session /\
    (result_code (meta res) = 200 \/ result_code (meta res) = 202 \/
     ignore_errors = true \/
     (raise_on_errors = false /\ result_code (meta res) <= 500)).
Proof.
  induction session as [|o session IH]; intros req ie roe log ae w res H.
  - discriminate H.
  - cbn [_send] in H.
    assert (Next : forall w',
               fst (_send session req ie roe log ae w') = Returned res ->
               In (Responds res) (o :: session) /\
               (result_code (meta res) = 200 \/ result_code (meta res) = 202 \/
                ie = true \/ (roe = false /\ result_code (meta res) <= 500))).
    { intros w' H'. destruct (IH _ _ _ _ _ _ _ H') as [G1 G2].
      split; [now right|exact G2]. }
    destruct o as [res'|x|e'].
    + destruct (in_200_202 res' || ie)%bool eqn:E.
      * cbn [fst] in H. injection H as <-.
        split; [now left|].
        apply orb_true_iff in E as [E|E]; [|tauto].
        apply in_200_202_iff in E. tauto.
      * destruct (result_code (meta res') <=? 500) eqn:L.
        -- destruct roe; [discriminate H|].
           cbn [fst] in H. injection H as <-.
           split; [now left|].
           right; right; right. split; [reflexivity|now apply Z.leb_le].
        -- exact (Next _ H).
    + destruct log; [exact (Next _ H)|discriminate H].
    + discriminate H.
Qed.

(** A 404 handed back with [raise_on_errors=False]. *)
Lemma send_returns_only_settled_responses_witness :
  In (Responds Demo.not_found_response) [Responds Demo.not_found_response] /\
  (result_code (meta Demo.not_found_response) = 200 \/
   result_code (meta Demo.not_found_response) = 202 \/
   false = true \/
   (false = false /\ result_code (meta Demo.not_found_response) <= 500)).
Proof.
  exact (send_returns_only_settled_responses
           [Responds Demo.not_found_response] Demo.add_request false false
           true false wire0 Demo.not_found_response eq_refl).
Defined.

(** X4.  Every request [_send] issues is the request it was given, with
    the [async_enable] flag it was given: the loop resends, it never
    sends anything else, and it sends at most once per outcome of the
    session. *)
Theorem send_resends_the_same_request :
  forall (session : Session) req ignore_errors raise_on_errors log
         async_enable w,
    let out := _send session req ignore_errors raise_on_errors log
                 async_enable w in
    exists k,
      (k <= List.length session)%nat /\
      sent (snd out) = (sent w ++ repeat (req, async_enable) k)%list.
Proof.
  induction session as [|o session IH]; intros req ie roe log ae w; cbv zeta.
  - exists 0%nat. cbn. rewrite app_nil_r. auto.
  - assert (Next : forall w',
               sent w' = (sent w ++ [(req, ae)])%list ->
               exists k,
                 (k <= List.length (o :: session))%nat /\
                 sent (snd (_send session req ie roe log ae w'))
                 = (sent w ++ repeat (req, ae) k)%list).
    { intros w' Hw'. destruct (IH req ie roe log ae w') as (k & Hk & Hs).
      exists (S k). split; [cbn; lia|].
      rewrite Hs, Hw', <- app_assoc. reflexivity. }
    assert (One : exists k,
               (k <= List.length (o :: session))%nat /\
               (sent w ++ [(req, ae)])%list
               = (sent w ++ repeat (req, ae) k)%list).
    { exists 1%nat. split; [cbn; lia|reflexivity]. }
    cbn [_send].
    destruct o as [res|x|e'].
    + destruct (in_200_202 res || ie)%bool; [exact One|].
      destruct (result_code (meta res) <=? 500).
      * destruct roe; cbn [snd]; destruct log; exact One.
      * apply Next. destruct log; reflexivity.
    + destruct log; [|exact One]. apply Next. reflexivity.
    + exact One.
Qed.

End DispatcherLoop.

(* ===================================================================== *)
(** * The reporter: what the buffer and the batches add up to            *)
(* ===================================================================== *)

Module ReporterLedger.
Import Reporter Readings Steps Ledger ReporterFacts.

Section Facts.

Context {Metrics : Type} {metrics_api : MetricsAPI Metrics} {plotly : Plotly}.

Let reporter : Type := Reporter.t Metrics.

#[local] Arguments _report : simpl never.
#[local] Arguments _write : simpl never.
#[local] Arguments flush : simpl never.

(** ** Composing what methods keep and ensure *)

Lemma keeps_bind {A B : Type} (I : reporter -> Prop)
    (c : Reporter.M Metrics A) (k : A -> Reporter.M Metrics B) :
  keeps I c -> (forall a, keeps I (k a)) -> keeps I (bind c k).
Proof.
  intros Hc Hk r Hr. unfold bind.
  specialize (Hc r Hr). destruct (c r) as [[a|e] r1]; cbn [snd] in *.
  - apply Hk, Hc.
  - exact Hc.
Qed.

Lemma keeps_still {A : Type} (I : reporter -> Prop)
    (c : Reporter.M Metrics A) :
  (forall r, snd (c r) = r) -> keeps I c.
Proof. intros H r Hr. rewrite H. exact Hr. Qed.

Lemma ensures_bind {A B : Type} (Q : reporter -> Prop)
    (c : Reporter.M Metrics A) (k : A -> Reporter.M Metrics B) :
  (forall a, ensures (k a) Q) -> ensures (bind c k) Q.
Proof.
  intros Hk r [b Hb]. unfold bind in *.
  destruct (c r) as [[a|e] r1]; cbn [fst snd] in *.
  - apply Hk. exists b. exact Hb.
  - discriminate Hb.
Qed.

Lemma ensures_raise {A : Type} (Q : reporter -> Prop) (e : exn) :
  ensures (raise (A := A) e) Q.
Proof. intros r [a Ha]. discriminate Ha. Qed.

Section KeepsRun.

Variable I : reporter -> Prop.
Hypothesis I_report : forall ev, keeps I (_report ev).
Hypothesis I_flush : keeps I flush.
Hypothesis I_threshold : forall n r, I r -> I (with_flush_threshold n r).
Hypothesis I_async_enable : forall b r, I r -> I (with_async_enable b r).
Hypothesis I_storage_uri : forall v r, I r -> I (with_storage_uri v r).

Lemma keeps_single_report (op : Op) :
  is_report op = true ->
  is_report_image_plot_and_upload op = false ->
  keeps I (run op).
Proof.
  intros Hrep Hnot r Hr.
  destruct (report_call_shape op r Hrep Hnot) as [[e ->]|(ev & _ & ->)].
  - exact Hr.
  - apply I_report, Hr.
Qed.

Lemma keeps_run (op : Op) : keeps I (run op).
Proof.
  destruct (is_report op) eqn:Hrep.
  - destruct (is_report_image_plot_and_upload op) eqn:Himg;
      [|apply keeps_single_report; assumption].
    destruct op; try discriminate. cbn [run].
    unfold report_image_plot_and_upload.
    apply keeps_bind; [apply keeps_still; reflexivity|intros r0].
    destruct (_ && _)%bool; [apply keeps_still; reflexivity|].
    destruct (negb _); [apply keeps_still; reflexivity|].
    do 3 (apply keeps_bind; [apply keeps_still; reflexivity|intros ?]).
    apply keeps_bind; [apply I_report|intros _].
    do 6 (apply keeps_bind; [apply keeps_still; reflexivity|intros ?]).
    apply (keeps_single_report (Report_plot _ _ _ _)); reflexivity.
  - destruct op; try discriminate; cbn [run].
    + exact I_flush.
    + intros r Hr. apply I_threshold, Hr.
    + intros r Hr. apply I_async_enable, Hr.
    + intros r Hr. unfold setattr; cbn [fset storage_uri].
      unfold _set_storage_uri, bind, self, lift, raise, update.
      destruct v; cbn; try exact Hr.
      destruct (strings_of _); cbn; [apply I_storage_uri|]; exact Hr.
    + unfold __exit__. destruct (negb _); [exact I_flush|].
      apply keeps_still; reflexivity.
Qed.

Lemma keeps_exec (ops : list Op) : forall r, I r -> I (exec ops r).
Proof.
  induction ops as [|op ops IH]; intros r Hr; cbn [exec]; [exact Hr|].
  apply IH, keeps_run, Hr.
Qed.

Lemma keeps_reachable :
  (forall m n a, I (__init__ m n a)) -> forall r, reachable r -> I r.
Proof.
  intros Hinit r (m & n & a & ops & ->). apply keeps_exec, Hinit.
Qed.

End KeepsRun.

(** ** The log and the buffer after [_write], [_report], [flush] *)

Lemma _write_log (r : reporter) :
  (_events r = [] ->
     calls (snd (_write r)) = (calls r ++ [Call_write])%list /\
     _events (snd (_write r)) = []) /\
  (_events r <> [] ->
     exists tail,
       calls (snd (_write r))
       = (calls r ++ Call_write
            :: Call_write_events (_events r) (_async_enable r) (_storage_uri r)
            :: tail)%list /\
       handed tail = [] /\ reported tail = [] /\ batches_not_empty tail /\
       (_events (snd (_write r)) = [] \/
        _events (snd (_write r)) = _events r /\
        exists e, fst (write_events (_metrics r) (_events r) (_async_enable r)
                         (_storage_uri r)) = Raise e)).
Proof.
  split; intros H.
  - rewrite _write_empty by exact H. split; [reflexivity|exact H].
  - rewrite _write_nonempty by exact H. cbv zeta.
    destruct (fst (write_events _ _ _ _)) as [x|e] eqn:E; cbn [snd].
    + destruct (_async_enable r);
        [exists [Call_add_async_result x]|exists []];
        (split; [cbn; repeat rewrite <- app_assoc; reflexivity|]);
        (split; [reflexivity|]); (split; [reflexivity|]);
        (split; [repeat constructor|left; reflexivity]).
    + exists []. split; [cbn; repeat rewrite <- app_assoc; reflexivity|].
      split; [reflexivity|]. split; [reflexivity|].
      split; [constructor|].
      right. split; [reflexivity|]. exists e. reflexivity.
Qed.

Lemma handed_app (a b : list Call) :
  handed (a ++ b) = (handed a ++ handed b)%list.
Proof. apply flat_map_app. Qed.

Lemma reported_app (a b : list Call) :
  reported (a ++ b) = (reported a ++ reported b)%list.
Proof. apply flat_map_app. Qed.

Lemma batches_not_empty_app (a b : list Call) :
  batches_not_empty a -> batches_not_empty b -> batches_not_empty (a ++ b).
Proof. intros Ha Hb. apply Forall_app. split; assumption. Qed.

(** ** Batches are never empty *)

Lemma _write_keeps_batches :
  keeps (fun r : reporter => batches_not_empty (calls r)) _write.
Proof.
  intros r Hr. destruct (_events r) as [|ev evs] eqn:E.
  - destruct (proj1 (_write_log r) E) as [-> _].
    apply batches_not_empty_app; [exact Hr|repeat constructor].
  - destruct (proj2 (_write_log r)) as (tail & -> & _ & _ & Ht & _);
      [congruence|].
    apply batches_not_empty_app; [exact Hr|].
    constructor; [exact I|]. constructor; [|exact Ht].
    rewrite E. discriminate.
Qed.

Lemma _report_keeps_batches (ev : Event) :
  keeps (fun r : reporter => batches_not_empty (calls r)) (_report ev).
Proof.
  intros r Hr. rewrite _report_eq. cbv zeta.
  assert (H1 : batches_not_empty
                 (calls (with_events (_events r ++ [ev])
                           (with_call (Call_report ev) r)))).
  { cbn. apply batches_not_empty_app; [exact Hr|repeat constructor]. }
  destruct (_ >=? _); [|exact H1].
  apply _write_keeps_batches, H1.
Qed.

Lemma flush_keeps_calls_property (P : list Call -> Prop) :
  (forall cs c, P cs -> is_write_events_call c = false -> P (cs ++ [c])%list) ->
  keeps (fun r : reporter => P (calls r)) _write ->
  keeps (fun r : reporter => P (calls r)) flush.
Proof.
  intros Hc Hw r Hr. rewrite flush_eq. cbv zeta.
  assert (H1 : P (calls (snd (_write (with_call Call_flush r))))).
  { apply Hw. cbn. apply Hc; [exact Hr|reflexivity]. }
  destruct (fst (_write (with_call Call_flush r))); cbn [snd]; [|exact H1].
  destruct (_ >? _); cbn [snd]; [|exact H1].
  cbn. apply Hc; [exact H1|reflexivity].
Qed.

(** X5.  [write_events] is never called with an empty batch: in every
    state reachable through the public interface, each logged
    [write_events] call carried at least one event (a flush or a scope
    exit on an empty buffer calls nothing). *)
Theorem write_events_never_gets_an_empty_batch :
  forall r : reporter,
    reachable r ->
    forall events async uri,
      In (Call_write_events events async uri) (calls r) -> events <> [].
Proof.
  intros r Hr events async uri Hin.
  assert (H : batches_not_empty (calls r)).
  { apply (keeps_reachable (fun r => batches_not_empty (calls r)));
      try (intros; assumption); try exact Hr.
    - exact _report_keeps_batches.
    - apply (flush_keeps_calls_property batches_not_empty).
      + intros cs c Hcs Hc. apply batches_not_empty_app; [exact Hcs|].
        constructor; [|constructor]. destruct c; try exact I; discriminate.
      + exact _write_keeps_batches.
    - intros; constructor. }
  unfold batches_not_empty in H. rewrite Forall_forall in H.
  exact (H _ Hin).
Qed.

(** ** Nothing lost, doubled or reordered *)

Section Steady.

(** The manager's [write_events] always returns. *)
Hypothesis write_events_returns :
  forall m events async uri,
    exists x, fst (write_events (Metrics := Metrics) m events async uri) = Ok x.

Let settled (r : reporter) : Prop :=
  (handed (calls r) ++ _events r)%list = reported (calls r).

Lemma _write_keeps_settled : keeps settled _write.
Proof.
  intros r Hr. unfold settled in *.
  destruct (_events r) as [|ev evs] eqn:E.
  - destruct (proj1 (_write_log r) E) as [-> ->].
    rewrite handed_app, reported_app, <- Hr. cbn.
    rewrite !app_nil_r. reflexivity.
  - destruct (proj2 (_write_log r)) as (tail & -> & Hh & Hrp & _ & Hev);
      [congruence|].
    destruct Hev as [->|[_ [e He]]].
    + rewrite handed_app, reported_app, <- Hr, E.
      unfold handed, reported in *. cbn.
      rewrite Hh, Hrp, !app_nil_r. reflexivity.
    + destruct (write_events_returns (_metrics r) (_events r)
                  (_async_enable r) (_storage_uri r)) as [x Hx].
      congruence.
Qed.

Lemma _report_keeps_settled (ev : Event) : keeps settled (_report ev).
Proof.
  intros r Hr. rewrite _report_eq. cbv zeta.
  assert (H1 : settled (with_events (_events r ++ [ev])
                          (with_call (Call_report ev) r))).
  { unfold settled in *. cbn.
    rewrite handed_app, reported_app, <- Hr. cbn.
    rewrite app_nil_r, <- app_assoc. reflexivity. }
  destruct (_ >=? _); [|exact H1].
  apply _write_keeps_settled, H1.
Qed.

Lemma flush_keeps_settled : keeps settled flush.
Proof.
  intros r Hr. rewrite flush_eq. cbv zeta.
  assert (H0 : settled (with_call Call_flush r)).
  { unfold settled in *. cbn. rewrite handed_app, reported_app, <- Hr. cbn.
    rewrite !app_nil_r. reflexivity. }
  pose proof (_write_keeps_settled _ H0) as H1.
  destruct (fst (_write (with_call Call_flush r))); cbn [snd]; [|exact H1].
  destruct (_ >? _); cbn [snd]; [|exact H1].
  unfold settled in *. cbn. rewrite handed_app, reported_app, <- H1. cbn.
  rewrite !app_nil_r. reflexivity.
Qed.

(** X6.  With a manager whose [write_events] always returns, no event is
    lost, doubled or reordered: in every reachable state, the batches
    handed to [write_events], one after the other, followed by what is
    still in the buffer, are exactly the events passed to [_report], in
    the order they were reported. *)
Theorem batches_then_buffer_are_the_reported_events :
  forall r : reporter,
    reachable r ->
    (handed (calls r) ++ _events r)%list = reported (calls r).
Proof.
  intros r Hr.
  apply (keeps_reachable settled); try exact Hr.
  - exact _report_keeps_settled.
  - exact flush_keeps_settled.
  - intros n r0 H; exact H.
  - intros b r0 H; exact H.
  - intros v r0 H; exact H.
  - intros; reflexivity.
Qed.

End Steady.

End Facts.

End ReporterLedger.

(* ===================================================================== *)
(** * The reporter: flushing, bounds, and the composite calls            *)
(* ===================================================================== *)

Module ReporterCalls.
Import Reporter Readings Steps Ledger ReporterFacts ReporterLedger.

Section Facts.

Context {Metrics : Type} {metrics_api : MetricsAPI Metrics} {plotly : Plotly}.

Let reporter : Type := Reporter.t Metrics.

#[local] Arguments _report : simpl never.
#[local] Arguments _write : simpl never.
#[local] Arguments flush : simpl never.

Ltac read_calls :=
  unfold writes_between, flushes_between, write_events_between;
  match goal with
  | |- context [calls_since ?r ?r'] =>
      erewrite (calls_since_app r r');
      [| cbn [calls with_call with_events with_metrics with_async_results];
         repeat rewrite <- app_assoc; cbn [app]; reflexivity ]
  end.

Lemma no_results_pending (l : list WriteResult) :
  (Z.of_nat (List.length l) >? 0) = false -> l = [].
Proof. destruct l; [reflexivity|]. cbn. discriminate. Qed.

Lemma result_pending_after_add (l : list WriteResult) (x : WriteResult) :
  (Z.of_nat (List.length (l ++ [x])) >? 0) = true.
Proof.
  rewrite length_app, Nat.add_1_r. reflexivity.
Qed.

(** X7.  When [flush] returns, the buffer is empty and no asynchronous
    result is pending; [write_events] was called once if the buffer held
    events and not at all otherwise.  [flush] raises only what
    [write_events] raised, and then buffer and pending results are as
    they were. *)
Theorem flush_leaves_nothing_behind :
  forall r : reporter,
    let out := flush r in
    (fst out = Ok tt ->
       _events (snd out) = [] /\ _async_results (snd out) = [] /\
       fst (get_num_results (snd out)) = Ok 0)
    /\
    (forall e, fst out = Raise e ->
       _events r <> [] /\
       fst (write_events (_metrics r) (_events r) (_async_enable r)
              (_storage_uri r)) = Raise e /\
       _events (snd out) = _events r /\
       _async_results (snd out) = _async_results r)
    /\
    write_events_between r (snd out)
    = (match _events r with [] => 0 | _ :: _ => 1 end)%nat.
Proof.
  intros r out; subst out. rewrite flush_eq. cbv zeta.
  destruct (_events r) as [|ev evs] eqn:E.
  - rewrite _write_empty by exact E. cbn [fst snd].
    destruct (_ >? _) eqn:G; cbn [fst snd].
    + split; [intros _; repeat split; exact E|].
      split; [discriminate|]. read_calls. reflexivity.
    + cbn in G. apply no_results_pending in G.
      split; [intros _; cbn; rewrite G; repeat split; exact E|].
      split; [discriminate|]. read_calls. reflexivity.
  - rewrite _write_nonempty by (cbn; congruence). cbv zeta.
    cbn [_events _metrics _async_enable _storage_uri _async_results
           with_call].
    rewrite E.
    destruct (write_events (_metrics r) (ev :: evs) (_async_enable r)
                (_storage_uri r)) as [[x|e] m]; cbn [fst snd].
    + destruct (_async_enable r); cbn.
      * rewrite result_pending_after_add. cbn.
        split; [intros _; repeat split|].
        split; [discriminate|]. read_calls. reflexivity.
      * destruct (_ >? _) eqn:G; cbn.
        -- split; [intros _; repeat split|].
           split; [discriminate|]. read_calls. reflexivity.
        -- apply no_results_pending in G.
           split; [intros _; rewrite G; repeat split|].
           split; [discriminate|]. read_calls. reflexivity.
    + split; [discriminate|].
      split; [|read_calls; reflexivity].
      intros e' [= <-].
      split; [discriminate|]. split; [reflexivity|].
      split; [cbn; exact E|reflexivity].
Qed.

(** ** How full the buffer can be after a report *)

Let below_threshold (r : reporter) : Prop :=
  _events r = [] \/
  Z.of_nat (List.length (_events r)) < _flush_threshold r.

Lemma _report_ensures_below (ev : Event) : ensures (_report ev) below_threshold.
Proof.
  intros r [a Ha]. rewrite _report_eq in *. cbv zeta in *.
  destruct (Z.geb_spec (Z.of_nat (List.length (_events r ++ [ev])))
              (_flush_threshold r)) as [G|G].
  - rewrite _write_nonempty in * by (cbn; apply app_one_not_nil).
    cbv zeta in *.
    destruct (fst (write_events _ _ _ _)); [|discriminate Ha].
    left. reflexivity.
  - right. cbn. exact G.
Qed.

Lemma report_ensures_below (op : Op) :
  is_report op = true -> ensures (run op) below_threshold.
Proof.
  intros Hrep.
  assert (Single : forall op',
             is_report op' = true ->
             is_report_image_plot_and_upload op' = false ->
             ensures (run op') below_threshold).
  { intros op' H1 H2 r Hr.
    destruct (report_call_shape op' r H1 H2) as [[e He]|(ev & _ & Hev)].
    - rewrite He in Hr. destruct Hr as [a Ha]. discriminate Ha.
    - rewrite Hev in *. apply _report_ensures_below, Hr. }
  destruct (is_report_image_plot_and_upload op) eqn:Himg;
    [|apply Single; assumption].
  destruct op; try discriminate. cbn [run].
  unfold report_image_plot_and_upload.
  apply ensures_bind; intros r0.
  destruct (_ && _)%bool; [apply ensures_raise|].
  destruct (negb _); [apply ensures_raise|].
  do 10 (apply ensures_bind; intros ?).
  apply (Single (Report_plot _ _ _ _)); reflexivity.
Qed.

(** X8.  After any [report_*] call that returns, the buffer is empty or
    holds fewer events than [flush_threshold]: however full the buffer
    was before (the threshold may have been lowered since), a report
    that returns never leaves it at or above the threshold. *)
Theorem report_leaves_buffer_below_threshold :
  forall (op : Op) (r : reporter),
    is_report op = true ->
    fst (run op r) = Ok tt ->
    _events (snd (run op r)) = [] \/
    Z.of_nat (List.length (_events (snd (run op r))))
      < _flush_threshold (snd (run op r)).
Proof.
  intros op r Hrep Hok.
  apply (report_ensures_below op Hrep r). exists tt. exact Hok.
Qed.

(** ** Names are normalized once, however often it is done *)

Lemma reserved_to_slash_twice (c : ascii) :
  reserved_to_slash (reserved_to_slash c) = reserved_to_slash c.
Proof.
  unfold reserved_to_slash.
  destruct (Ascii.eqb c "$" || Ascii.eqb c ".")%bool eqn:E;
    [reflexivity|rewrite E; reflexivity].
Qed.

Lemma reserved_to_slash_not_reserved (c : ascii) :
  reserved_to_slash c <> "$"%char /\ reserved_to_slash c <> "."%char.
Proof.
  unfold reserved_to_slash.
  destruct (Ascii.eqb c "$" || Ascii.eqb c ".")%bool eqn:E.
  - split; discriminate.
  - apply orb_false_iff in E as [E1 E2].
    apply Ascii.eqb_neq in E1, E2. auto.
Qed.

Lemma normalize_name_again (v v' : value) :
  _normalize_name v = Ok v' -> _normalize_name v' = Ok v'.
Proof.
  unfold _normalize_name at 1.
  destruct (negb (truthy v)) eqn:T.
  - intros [= <-]. unfold _normalize_name. rewrite T. reflexivity.
  - destruct v; try discriminate. intros [= <-].
    rewrite StringFacts.normalize_chars, StringFacts.normalize_name_str.
    rewrite StringFacts.map_chars_compose.
    f_equal. f_equal. apply StringFacts.map_chars_ext, reserved_to_slash_twice.
Qed.

(** X9.  [_normalize_name] is idempotent, and what it returns for a
    string holds neither ['$'] nor ['.']; the only exception it raises
    is the [AttributeError] for a truthy value that is not a string. *)
Theorem normalize_name_is_idempotent :
  (forall v v', _normalize_name v = Ok v' -> _normalize_name v' = Ok v')
  /\
  (forall s s' i c,
     _normalize_name (VStr s) = Ok (VStr s') ->
     String.get i s' = Some c -> c <> "$"%char /\ c <> "."%char)
  /\
  (forall v e,
     _normalize_name v = Raise e ->
     e = AttributeError "replace" /\ truthy v = true /\ is_str v = false).
Proof.
  split; [exact normalize_name_again|]. split.
  - intros s s' i c H Hget.
    rewrite StringFacts.normalize_name_str in H. injection H as <-.
    rewrite StringFacts.map_chars_get in Hget.
    destruct (String.get i s) as [d|]; [|discriminate].
    cbn in Hget. injection Hget as <-.
    apply reserved_to_slash_not_reserved.
  - intros v e H. split; [exact (normalize_name_raises v e H)|].
    unfold _normalize_name in H.
    destruct (truthy v); [|discriminate H].
    split; [reflexivity|]. destruct v; try reflexivity. discriminate H.
Qed.

(** A name that is already normalized. *)
Lemma normalize_name_is_idempotent_witness :
  _normalize_name (VStr "a/b/c") = Ok (VStr "a/b/c").
Proof.
  apply (proj1 normalize_name_is_idempotent (VStr "a.b$c")).
  reflexivity.
Defined.

Lemma report_plot_normalized (title series title' series' : value)
    (chart : Chart) (iter : Z) (r : reporter) :
  _normalize_name title = Ok title' ->
  _normalize_name series = Ok series' ->
  report_plot title' series' (VDict chart) iter r
  = report_plot title series (VDict chart) iter r.
Proof.
  intros Ht Hs. unfold report_plot, bind, lift, ret.
  rewrite (normalize_name_again _ _ Ht), (normalize_name_again _ _ Hs), Ht, Hs.
  reflexivity.
Qed.

(** The chart calls that normalize title and series before they call
    [report_plot], which normalizes them again. *)
Lemma chart_then_report_plot (built : Res Chart) (title series : value)
    (iter : Z) (r : reporter) :
  bind (lift built) (fun plotly_dict =>
  bind (lift (_normalize_name title)) (fun title' =>
  bind (lift (_normalize_name series)) (fun series' =>
  report_plot title' series' (VDict plotly_dict) iter))) r
  = match built with
    | Ok chart => report_plot title series (VDict chart) iter r
    | Raise e => (Raise e, r)
    end.
Proof.
  unfold bind at 1, lift at 1. destruct built as [chart|e]; [|reflexivity].
  unfold bind at 1, lift at 1.
  destruct (_normalize_name title) as [title'|e] eqn:Et.
  - unfold bind at 1, lift at 1.
    destruct (_normalize_name series) as [series'|e] eqn:Es.
    + apply report_plot_normalized; assumption.
    + unfold report_plot, bind, lift, ret. rewrite Et, Es. reflexivity.
  - unfold report_plot, bind, lift, ret. rewrite Et. reflexivity.
Qed.

(** X10.  The chart calls report the plot under the names they were
    given: [report_histogram], [report_2d_scatter],
    [report_value_matrix] and [report_value_surface] do what
    [report_plot] does with the built chart and the caller's own title
    and series (normalizing twice changes nothing), and raise what the
    builder raised, the reporter untouched, when no chart is built;
    [report_line_plot] reports under the empty series whatever series
    it is given. *)
Theorem chart_calls_report_the_built_chart :
  forall (r : reporter) (title series : value) (iter : Z),
    (forall histogram labels xlabels comment,
       report_histogram title series histogram iter labels xlabels comment r
       = match create_2d_histogram_plot histogram title labels series xlabels
                 comment with
         | Ok chart => report_plot title series (VDict chart) iter r
         | Raise e => (Raise e, r)
         end)
    /\
    (forall data mode xtitle ytitle labels comment,
       report_2d_scatter title series data iter mode xtitle ytitle labels
         comment r
       = match create_2d_scatter_series data title series mode xtitle ytitle
                 labels comment with
         | Ok chart => report_plot title series (VDict chart) iter r
         | Raise e => (Raise e, r)
         end)
    /\
    (forall data xlabels ylabels comment,
       report_value_matrix title series data iter xlabels ylabels comment r
       = match create_value_matrix data title xlabels ylabels series comment
         with
         | Ok chart => report_plot title series (VDict chart) iter r
         | Raise e => (Raise e, r)
         end)
    /\
    (forall data xlabels ylabels xtitle ytitle ztitle camera comment,
       report_value_surface title series data iter xlabels ylabels xtitle
         ytitle ztitle camera comment r
       = match title_slash_series title series with
         | Ok full_title =>
             match create_3d_surface data full_title xlabels ylabels series
                     xtitle ytitle ztitle camera comment with
             | Ok chart => report_plot title series (VDict chart) iter r
             | Raise e => (Raise e, r)
             end
         | Raise e => (Raise e, r)
         end)
    /\
    (forall xtitle ytitle mode reverse_xaxis comment,
       report_line_plot title series iter xtitle ytitle mode reverse_xaxis
         comment r
       = match create_line_plot title series xtitle ytitle mode reverse_xaxis
                 comment with
         | Ok chart => report_plot title (VStr EmptyString) (VDict chart) iter r
         | Raise e => (Raise e, r)
         end).
Proof.
  intros r title series iter.
  split; [|split; [|split; [|split]]]; intros.
  - apply chart_then_report_plot.
  - apply chart_then_report_plot.
  - apply chart_then_report_plot.
  - unfold report_value_surface. unfold bind at 1, lift at 1.
    destruct (title_slash_series title series); [|reflexivity].
    apply chart_then_report_plot.
  - unfold report_line_plot. unfold bind at 1, lift at 1.
    destruct (create_line_plot _ _ _ _ _ _ _) as [chart|e]; [|reflexivity].
    unfold bind at 1, lift at 1.
    destruct (_normalize_name title) as [title'|e] eqn:Et.
    + apply (report_plot_normalized title (VStr EmptyString) title'
               (VStr EmptyString)); [exact Et|reflexivity].
    + unfold report_plot, bind, lift, ret. rewrite Et. reflexivity.
Qed.

(** ** [report_image_plot_and_upload]: a failure after the first report *)

Lemma shape_or_too_flat (a : ndarray) (dflt : Z) :
  (List.length (shape a) < 2)%nat ->
  shape_or (Some a) 1 dflt = Raise (IndexError "tuple index out of range").
Proof.
  intros H. unfold shape_or.
  destruct (nth_error (shape a) 1) eqn:E; [|reflexivity].
  assert (nth_error (shape a) 1 <> None) by congruence.
  apply nth_error_Some in H0. lia.
Qed.

(** X11.  [report_image_plot_and_upload] is not all-or-nothing: when the
    checks pass and the image event has been reported, but the plot
    cannot be built because title or series is not a string (a [None]
    title passes the normalization) or because the matrix has fewer than
    two dimensions, the call raises and the reporter stays as the report
    of the image event left it, the image event buffered or already
    written. *)
Theorem image_plot_failure_keeps_the_image_event :
  forall (r : reporter) title series iter path matrix upload_uri history
         metric variant target,
    let ev := ImageEvent matrix upload_uri path metric variant iter history in
    let out := report_image_plot_and_upload title series iter path matrix
                 upload_uri history r in
    (negb (truthy upload_uri) && negb (truthy (_storage_uri r)))%bool = false ->
    count_not_none path matrix = 1 ->
    _normalize_name title = Ok metric ->
    _normalize_name series = Ok variant ->
    get_target_full_upload_uri ev (py_or upload_uri (_storage_uri r))
      (storage_key_prefix (_metrics r)) = Ok target ->
    ((exists e, title_slash_series title series = Raise e) \/
     (exists a, matrix = Some a /\ (List.length (shape a) < 2)%nat)) ->
    snd out = snd (_report ev r) /\
    (exists e, fst out = Raise e) /\
    hd_error (calls_since r (snd out)) = Some (Call_report ev).
Proof.
  intros r title series iter path matrix upload_uri history metric variant
    target ev out Hd Hc Ht Hs Hg Hfail.
  assert (E : snd out = snd (_report ev r) /\ exists e, fst out = Raise e).
  { subst out ev. unfold report_image_plot_and_upload, bind, self, lift.
    rewrite Hd. apply Z.eqb_eq in Hc. rewrite Hc. cbn [negb].
    rewrite Ht, Hs, Hg.
    destruct (_report _ r) as [[[]|e] r1]; cbn [fst snd];
      [|split; [reflexivity|exists e; reflexivity]].
    destruct Hfail as [[e He]|(a & -> & Ha)].
    - rewrite He. split; [reflexivity|exists e; reflexivity].
    - destruct (title_slash_series title series) as [ft|e];
        [|split; [reflexivity|exists e; reflexivity]].
      rewrite (shape_or_too_flat a 640 Ha).
      split; [reflexivity|eexists; reflexivity]. }
  destruct E as [E1 E2]. split; [exact E1|]. split; [exact E2|].
  rewrite E1. apply _report_outcome.
Qed.

(** ** A storage URI made of slashes only *)

Lemma rstrip_of_slashes (k : nat) : str_rstrip "/" (slashes k) = EmptyString.
Proof. induction k as [|k IH]; [reflexivity|]. cbn. rewrite IH. reflexivity. Qed.

Lemma rstrip_empty_iff (v : string) :
  str_rstrip "/" v = EmptyString <-> v = slashes (String.length v).
Proof.
  split.
  - intros H. destruct (StringFacts.rstrip_slash_decompose v) as [k Hk].
    rewrite H in Hk. cbn in Hk.
    assert (L : String.length v = k).
    { rewrite Hk. clear. induction k; cbn; congruence. }
    rewrite L. exact Hk.
  - intros ->. apply rstrip_of_slashes.
Qed.

Lemma set_storage_uri_stored (r : reporter) (v key_prefix : string) :
  (storage_key_prefix (_metrics r) = VStr key_prefix \/
   storage_key_prefix (_metrics r) = VNone /\ key_prefix = EmptyString) ->
  setattr storage_uri (VStr v) r
  = (Ok tt,
     with_storage_uri
       (VStr (upload_destination (str_rstrip "/" v) key_prefix)) r).
Proof.
  intros H. unfold setattr; cbn [fset storage_uri].
  unfold _set_storage_uri, bind, self, lift, update, upload_destination.
  cbn [filter]. rewrite truthy_str.
  destruct H as [H|[H ->]]; rewrite H.
  - rewrite truthy_str.
    destruct (str_rstrip "/" v =? EmptyString)%string;
      destruct (key_prefix =? EmptyString)%string eqn:Ek; cbn;
      try reflexivity.
    apply String.eqb_eq in Ek. subst. reflexivity.
  - cbn [truthy].
    destruct (str_rstrip "/" v =? EmptyString)%string; cbn; reflexivity.
Qed.

Lemma upload_destination_empty_iff (base key_prefix : string) :
  upload_destination base key_prefix = EmptyString <->
  base = EmptyString /\ key_prefix = EmptyString.
Proof.
  unfold upload_destination.
  destruct (String.eqb_spec base EmptyString) as [->|Hb].
  - tauto.
  - destruct (String.eqb_spec key_prefix EmptyString) as [->|Hk].
    + tauto.
    + split; [|tauto]. destruct base; [congruence|discriminate].
Qed.

(** X12.  Assigning a [storage_uri] that consists of slashes only (the
    empty string included), with no key prefix, stores the empty string,
    which counts as no upload destination: every later
    [report_image_and_upload] without its own [upload_uri] still raises
    the configuration failure.  With any other value, or with a key
    prefix, a destination is stored and that failure is not raised. *)
Theorem storage_uri_of_slashes_is_no_destination :
  forall (r : reporter) (v key_prefix : string),
    (storage_key_prefix (_metrics r) = VStr key_prefix \/
     storage_key_prefix (_metrics r) = VNone /\ key_prefix = EmptyString) ->
    let r' := snd (setattr storage_uri (VStr v) r) in
    (truthy (_storage_uri r') = false <->
       v = slashes (String.length v) /\ key_prefix = EmptyString)
    /\
    (forall title series iter path matrix history,
       report_image_and_upload title series iter path matrix VNone history r'
       = (Raise (ValueError
                   "Upload configuration is required (use setup_upload())"),
          r')
       <-> v = slashes (String.length v) /\ key_prefix = EmptyString).
Proof.
  intros r v key_prefix H r'; subst r'.
  rewrite (set_storage_uri_stored r v key_prefix H). cbn [snd].
  assert (T : truthy (_storage_uri
                        (with_storage_uri
                           (VStr (upload_destination (str_rstrip "/" v)
                                    key_prefix)) r)) = false
              <-> v = slashes (String.length v) /\ key_prefix = EmptyString).
  { cbn [_storage_uri with_storage_uri]. rewrite truthy_str.
    rewrite negb_false_iff, String.eqb_eq, upload_destination_empty_iff,
      rstrip_empty_iff. tauto. }
  split; [exact T|].
  intros title series iter path matrix history.
  rewrite <- T. set (r1 := with_storage_uri _ r).
  split.
  - intros Hraise.
    destruct (truthy (_storage_uri r1)) eqn:D; [exfalso|reflexivity].
    assert (Hd : (negb (truthy (_storage_uri r1)) && negb (truthy VNone))%bool
                 = false) by (rewrite D; reflexivity).
    destruct (Z.eq_dec (count_not_none path matrix) 1) as [Hc|Hc].
    + rewrite (report_image_and_upload_accepts r1 _ _ _ _ _ _ _ Hd Hc)
        in Hraise.
      destruct (_normalize_name title) as [metric|e] eqn:Et.
      * destruct (_normalize_name series) as [variant|e] eqn:Es.
        -- exact (_report_changes_reporter _ _ _ Hraise).
        -- rewrite (normalize_name_raises _ _ Es) in Hraise.
           discriminate Hraise.
      * rewrite (normalize_name_raises _ _ Et) in Hraise. discriminate Hraise.
    + apply Z.eqb_neq in Hc.
      unfold report_image_and_upload, bind, self, raise in Hraise.
      rewrite Hd, Hc in Hraise. discriminate Hraise.
  - intros D. unfold report_image_and_upload, bind, self, raise.
    rewrite D. reflexivity.
Qed.

(** ** [report_3d_scatter]: series names and labels by index *)

Lemma scatter3d_series_runs_out (title labels mode line_width marker_size
    color fill : value) (names : list value) :
  (forall a t sn l c m lw ms col f,
     exists c', create_3d_scatter_series a t sn l c m lw ms col f = Ok c') ->
  forall (arrays : list ndarray) (i : nat) (chart : Chart),
    (i <= List.length names)%nat ->
    (List.length names < i + List.length arrays)%nat ->
    scatter3d_series title (VList names) labels mode line_width marker_size
      color fill i arrays chart
    = Raise (IndexError "list index out of range").
Proof.
  intros Hb. induction arrays as [|a arrays IH]; intros i chart Hi Hlt.
  - cbn in Hlt. lia.
  - cbn [scatter3d_series series_name_at].
    destruct (nth_error names i) as [name|] eqn:E; [|reflexivity].
    destruct (Hb a title name (get_labels labels i) chart mode line_width
                marker_size color fill) as [c' ->].
    apply IH.
    + assert (nth_error names i <> None) by congruence.
      apply nth_error_Some in H. lia.
    + cbn [List.length] in Hlt. lia.
Qed.


Lemma nth_error_last_item {A : Type} (l : list A) (d : A) :
  l <> [] -> nth_error l (List.length l - 1) = Some (last l d).
Proof.
  induction l as [|a l IH]; [congruence|]. intros _.
  destruct l as [|b l]; [reflexivity|].
  assert (IH' := IH ltac:(discriminate)).
  cbn [List.length] in *.
  replace (S (S (List.length l)) - 1)%nat with (S (List.length l)) by lia.
  replace (S (List.length l) - 1)%nat with (List.length l) in IH' by lia.
  exact IH'.
Qed.

(** X14.  [get_labels(i)] for labels that are a non-empty list picks
    the item at index [i], and the last item when [i] is past the end
    (so it never fails on the index and answers as for the last index);
    it returns that item if the item is itself a list, and the whole
    list of labels if it is not.  Labels that are not a list, or an
    empty list, are handed on as they are. *)
Theorem get_labels_past_the_end_uses_the_last :
  (forall (l : list value) (i : nat),
     l <> [] -> (List.length l <= i)%nat ->
     get_labels (VList l) i = get_labels (VList l) (List.length l - 1))
  /\
  (forall labels i,
     is_list labels = false \/ truthy labels = false ->
     get_labels labels i = labels)
  /\
  (forall (l : list value) (i : nat) (item : value),
     nth_error l i = Some item ->
     get_labels (VList l) i = if is_list item then item else VList l)
  /\
  (forall (l : list value) (i : nat),
     l <> [] -> (List.length l <= i)%nat ->
     get_labels (VList l) i
     = if is_list (last l VNone) then last l VNone else VList l).
Proof.
  split; [|split; [|split]].
  - intros l i Hne Hi. unfold get_labels, item_or_last.
    rewrite (proj2 (nth_error_None l i) Hi).
    rewrite (nth_error_last_item l VNone Hne). reflexivity.
  - intros labels i [H|H]; unfold get_labels.
    + destruct labels; try reflexivity. discriminate H.
    + destruct labels; try reflexivity. rewrite H. reflexivity.
  - intros l i item H. unfold get_labels, item_or_last. rewrite H.
    destruct l as [|a l]; [destruct i; discriminate H|]. reflexivity.
  - intros l i Hne Hi. unfold get_labels, item_or_last.
    rewrite (proj2 (nth_error_None l i) Hi).
    destruct l as [|a l]; [congruence|]. reflexivity.
Qed.

End Facts.

End ReporterCalls.

(* ===================================================================== *)
(** * base.py: ids, reloading, and the default session                   *)
(* ===================================================================== *)

Module BaseFacts.

(** ** [strip] *)

Lemma rstrip_ws_head (u : string) (c : ascii) (rest : string) :
  str_rstrip_ws u = String c rest -> exists u', u = String c u'.
Proof.
  destruct u as [|d u]; [discriminate|]. cbn [str_rstrip_ws].
  destruct (_ && _)%bool; [discriminate|].
  intros [= -> _]. exists u. reflexivity.
Qed.

Lemma lstrip_ws_head (s : string) (c : ascii) (rest : string) :
  str_lstrip_ws s = String c rest -> py_isspace c = false.
Proof.
  induction s as [|d s IH]; [discriminate|]. cbn [str_lstrip_ws].
  destruct (py_isspace d) eqn:E; [exact IH|].
  intros [= <- _]. exact E.
Qed.

Lemma rstrip_ws_last (u t : string) (c : ascii) :
  str_rstrip_ws u = t ++ String c EmptyString -> py_isspace c = false.
Proof.
  revert t; induction u as [|d u IH]; intros t.
  - destruct t; discriminate.
  - cbn [str_rstrip_ws].
    destruct (str_rstrip_ws u =? EmptyString)%string eqn:E; cbn [andb].
    + apply String.eqb_eq in E.
      destruct (py_isspace d) eqn:Ed.
      * destruct t; discriminate.
      * rewrite E. destruct t as [|x t]; cbn.
        -- intros [= <-]. exact Ed.
        -- destruct t; discriminate.
    + apply String.eqb_neq in E.
      destruct t as [|x t]; cbn.
      * intros [= _ H]. congruence.
      * intros [= _ H]. apply (IH t H).
Qed.

Lemma rstrip_ws_twice (u : string) :
  str_rstrip_ws (str_rstrip_ws u) = str_rstrip_ws u.
Proof.
  induction u as [|d u IH]; [reflexivity|]. cbn [str_rstrip_ws].
  destruct ((str_rstrip_ws u =? EmptyString)%string && py_isspace d)%bool
    eqn:E; [reflexivity|].
  cbn [str_rstrip_ws]. rewrite IH, E. reflexivity.
Qed.

Lemma lstrip_ws_of_stripped (s : string) :
  str_lstrip_ws (str_strip s) = str_strip s.
Proof.
  unfold str_strip.
  destruct (str_rstrip_ws (str_lstrip_ws s)) as [|c rest] eqn:E;
    [reflexivity|].
  destruct (rstrip_ws_head _ _ _ E) as [u' Hu].
  cbn [str_lstrip_ws]. rewrite (lstrip_ws_head _ _ _ Hu). reflexivity.
Qed.

Lemma strip_twice (s : string) : str_strip (str_strip s) = str_strip s.
Proof.
  unfold str_strip at 1. rewrite lstrip_ws_of_stripped.
  unfold str_strip. apply rstrip_ws_twice.
Qed.

Lemma lstrip_ws_all_space (s : string) :
  forallb py_isspace (list_ascii_of_string s) = true ->
  str_lstrip_ws s = EmptyString.
Proof.
  induction s as [|c s IH]; [reflexivity|]. cbn.
  intros H. apply andb_true_iff in H as [Hc Hs]. rewrite Hc. exact (IH Hs).
Qed.

Section IdObjects.

Context {Data World : Type} {subclass : IdObjectBase.Subclass Data World}.

Import IdObjectBase.

(** X15.  [normalize_id] gives [None] for every falsy id and the
    stripped string for a non-empty one: the result has no whitespace
    at either end and normalizing it again gives it back, unless it is
    empty.  An id of whitespace only becomes the empty string, not
    [None]. *)
Theorem normalize_id_strips_or_gives_none :
  (forall v, truthy v = false -> normalize_id v = Ok None)
  /\
  (forall s, s <> EmptyString ->
     normalize_id (VStr s) = Ok (Some (str_strip s)) /\
     (forall c rest, str_strip s = String c rest -> py_isspace c = false) /\
     (forall t c, str_strip s = t ++ String c EmptyString ->
                  py_isspace c = false) /\
     (str_strip s <> EmptyString ->
      normalize_id (VStr (str_strip s)) = Ok (Some (str_strip s))))
  /\
  (forall s, s <> EmptyString ->
     forallb py_isspace (list_ascii_of_string s) = true ->
     normalize_id (VStr s) = Ok (Some EmptyString)).
Proof.
  assert (N : forall s, s <> EmptyString ->
                normalize_id (VStr s) = Ok (Some (str_strip s))).
  { intros s Hs. unfold normalize_id. cbn [truthy].
    destruct (String.eqb_spec s EmptyString); [congruence|reflexivity]. }
  split; [|split].
  - intros v H. unfold normalize_id. rewrite H. reflexivity.
  - intros s Hs. split; [exact (N s Hs)|]. split; [|split].
    + intros c rest H. unfold str_strip in H.
      destruct (rstrip_ws_head _ _ _ H) as [u' Hu].
      exact (lstrip_ws_head _ _ _ Hu).
    + intros t c H. exact (rstrip_ws_last _ _ _ H).
    + intros Hne. rewrite (N _ Hne), strip_twice. reflexivity.
  - intros s Hs Hall. rewrite (N s Hs). unfold str_strip.
    rewrite (lstrip_ws_all_space s Hall). reflexivity.
Qed.

Lemma set_id_fresh (v : option string) (w : World) :
  set_id v (mk None None, w)
  = match v with
    | None => (Ok tt, (mk None None, w))
    | Some s => reload (mk None (Some s), w)
    end.
Proof. destruct v; reflexivity. Qed.

(** X16.  Constructing an [IdObjectBase]: with a falsy id ([None], the
    empty string) the object gets the id [None] and nothing is reloaded;
    with an id of whitespace only the constructor raises the
    "missing id" [ValueError], the id being the empty string by then;
    with any other string the id is the stripped string and [_reload]
    runs exactly once: its data are kept if it returned, its exception
    is swallowed if it is an [Exception], and leaves the constructor if
    it is not (as [KeyboardInterrupt] or [SystemExit]). *)
Theorem init_reloads_once_or_not_at_all :
  (forall v w, truthy v = false ->
     __init__ v w = (Ok tt, (mk None None, w)))
  /\
  (forall s w, s <> EmptyString -> str_strip s = EmptyString ->
     __init__ (VStr s) w
     = (Raise (ValueError ("Failed reloading " ++ class_name ++ ": missing id")),
        (mk None (Some EmptyString), w)))
  /\
  (forall s w, str_strip s <> EmptyString ->
     let self := mk None (Some (str_strip s)) in
     __init__ (VStr s) w
     = match _reload self w with
       | (Reloaded d, w') => (Ok tt, (mk d (Some (str_strip s)), w'))
       | (RaisesException _, w') => (Ok tt, (self, w'))
       | (RaisesBaseException e, w') => (Raise e, (self, w'))
       end).
Proof.
  split; [|split].
  - intros v w H. unfold __init__, normalize_id. rewrite H. reflexivity.
  - intros s w Hs Hstrip. unfold __init__, normalize_id. cbn [truthy].
    destruct (String.eqb_spec s EmptyString); [congruence|]. cbn [negb].
    rewrite set_id_fresh, Hstrip. reflexivity.
  - intros s w Hstrip self. subst self. unfold __init__, normalize_id.
    cbn [truthy].
    destruct (String.eqb_spec s EmptyString) as [->|_];
      [exfalso; apply Hstrip; reflexivity|].
    cbn [negb]. rewrite set_id_fresh. unfold reload. cbn [_id id_truthy].
    destruct (String.eqb_spec (str_strip s) EmptyString); [congruence|].
    cbn [negb].
    destruct (_reload _ w) as [[d|e|e] w']; reflexivity.
Qed.

Lemma id_neq_same (a : option string) : id_neq a a = false.
Proof. destruct a; cbn; [rewrite String.eqb_refl|]; reflexivity. Qed.

(** X17.  Assigning to [id]: assigning [None] or the id the object
    already has only stores it (nothing is reloaded, the cached data
    stay); assigning another, non-empty id stores it and reloads once:
    new data replace the cached ones, an [Exception] from [_reload] is
    swallowed and leaves the cached data of the old id in place, and
    only an exception that is not an [Exception] leaves the setter;
    assigning the empty string to an object with another id raises the
    "missing id" [ValueError] after the id has been changed. *)
Theorem set_id_reloads_only_for_a_new_id :
  forall (self : IdObjectBase.t Data) (w : World),
    set_id None (self, w) = (Ok tt, (mk (_data self) None, w))
    /\
    set_id (_id self) (self, w) = (Ok tt, (self, w))
    /\
    (forall s, Some s <> _id self -> s <> EmptyString ->
       let self' := mk (_data self) (Some s) in
       set_id (Some s) (self, w)
       = match _reload self' w with
         | (Reloaded d, w') => (Ok tt, (mk d (Some s), w'))
         | (RaisesException _, w') => (Ok tt, (self', w'))
         | (RaisesBaseException e, w') => (Raise e, (self', w'))
         end)
    /\
    (_id self <> Some EmptyString ->
       set_id (Some EmptyString) (self, w)
       = (Raise (ValueError ("Failed reloading " ++ class_name
                               ++ ": missing id")),
          (mk (_data self) (Some EmptyString), w))).
Proof.
  intros self w.
  assert (Neq : forall s, Some s <> _id self -> id_neq (Some s) (_id self) = true).
  { intros s H. destruct (_id self) as [i|]; cbn; [|reflexivity].
    destruct (String.eqb_spec s i); [congruence|reflexivity]. }
  split; [reflexivity|]. split; [|split].
  - unfold set_id. rewrite id_neq_same, andb_false_r.
    destruct self; reflexivity.
  - intros s Hs Hne self'. subst self'. unfold set_id.
    rewrite (Neq s Hs). cbn [is_not_none andb].
    unfold reload. cbn [_id id_truthy].
    destruct (String.eqb_spec s EmptyString); [congruence|]. cbn [negb].
    destruct (_reload _ w) as [[d|e|e] w']; reflexivity.
  - intros H. unfold set_id. rewrite (Neq EmptyString) by congruence.
    reflexivity.
Qed.

(** X18.  The [data] property caches what it found and nothing else:
    once an access has returned data, the next access returns the same
    data without reloading (object and world unchanged); an access that
    returned [None] ([_reload] raised an [Exception] or returned [None])
    leaves the cache empty, so the next access reloads again; and when
    [data] raises, it is either the "missing id" [ValueError], for an
    object without id and without cached data, which is left as it was,
    or what [_reload] raised that is not an [Exception]. *)
Theorem data_is_cached_once_found :
  forall (st : IdObjectBase.t Data * World),
    (forall d, fst (data st) = Ok (Some d) ->
       data (snd (data st)) = (Ok (Some d), snd (data st)))
    /\
    (fst (data st) = Ok None -> _data (fst (snd (data st))) = None)
    /\
    (forall e, fst (data st) = Raise e ->
       _data (fst st) = None /\
       ((e = ValueError ("Failed reloading " ++ class_name ++ ": missing id") /\
         id_truthy (_id (fst st)) = false /\
         snd (data st) = st)
        \/
        (id_truthy (_id (fst st)) = true /\
         exists w', _reload (fst st) (snd st) = (RaisesBaseException e, w') /\
                    snd (data st) = (fst st, w'))))
    /\
    (forall e w', id_truthy (_id (fst st)) = true -> _data (fst st) = None ->
       _reload (fst st) (snd st) = (RaisesException e, w') ->
       data st = (Ok None, (fst st, w'))).
Proof.
  intros [self w]. unfold data. cbn [fst snd].
  destruct (_data self) as [d0|] eqn:D.
  - cbn [fst snd]. rewrite D. split; [|split; [|split]].
    + intros d [= <-]. reflexivity.
    + discriminate.
    + discriminate.
    + discriminate.
  - unfold reload.
    destruct (id_truthy (_id self)) eqn:T; cbn [negb].
    + destruct (_reload self w) as [[d|e|e] w'] eqn:R; cbn [fst snd _data].
      * split; [|split; [|split]].
        -- intros d' [= ->]. reflexivity.
        -- intros [= ->]. reflexivity.
        -- discriminate.
        -- discriminate.
      * rewrite D. split; [discriminate|]. split; [reflexivity|].
        split; [discriminate|].
        intros e0 w0 _ _ [= <- <-]. reflexivity.
      * split; [discriminate|]. split; [discriminate|].
        split; [|discriminate].
        intros e0 [= <-]. split; [reflexivity|]. right.
        split; [reflexivity|]. exists w'. split; reflexivity.
    + cbn [fst snd]. split; [discriminate|]. split; [discriminate|].
      split; [|discriminate].
      intros e [= <-]. split; [reflexivity|]. left. auto.
Qed.

End IdObjects.

Section Sessions.

Context {World : Type} {factory : DefaultSession.Factory World}.

Import DefaultSession.


End Sessions.

End BaseFacts.

(* ===================================================================== *)
(** * More concrete runs                                                 *)
(* ===================================================================== *)

Module MoreRuns.
Import Reporter Readings Ledger Demo Steady BaseDemo.
Import ReporterLedger ReporterCalls BaseFacts.

(** X5 on a report followed by two flushes: one batch, not empty. *)
Lemma write_events_never_gets_an_empty_batch_witness :
  let r := exec [Report_scalar (VStr "loss") (VStr "train") (VFloat 5 (-1)) 1;
                 Flush; Flush]
             (__init__ healthy 10 false) in
  write_events_between (__init__ healthy 10 false) r = 1%nat /\
  forall events async uri,
    In (Call_write_events events async uri) (calls r) -> events <> [].
Proof.
  cbv zeta. split; [reflexivity|].
  apply (write_events_never_gets_an_empty_batch (Metrics := ScriptedMetrics)).
  exists healthy, 10, false,
    [Report_scalar (VStr "loss") (VStr "train") (VFloat 5 (-1)) 1; Flush; Flush].
  reflexivity.
Defined.

(** X6 on three reports with threshold 2: a batch of two, one event
    left in the buffer. *)
Lemma batches_then_buffer_are_the_reported_events_witness :
  let r := exec (map scalar_call
                   [("loss", "train", VFloat 5 (-1), 1);
                    ("loss", "train", VFloat 4 (-1), 2);
                    ("loss", "train", VFloat 3 (-1), 3)])
             (__init__ tt 2 false) in
  List.length (handed (calls r)) = 2%nat /\
  List.length (_events r) = 1%nat /\
  (handed (calls r) ++ _events r)%list = reported (calls r).
Proof.
  cbv zeta. split; [reflexivity|]. split; [reflexivity|].
  apply (batches_then_buffer_are_the_reported_events (Metrics := unit)).
  - intros m events async uri. exists NoResult. reflexivity.
  - exists tt, 2, false,
      (map scalar_call
         [("loss", "train", VFloat 5 (-1), 1);
          ("loss", "train", VFloat 4 (-1), 2);
          ("loss", "train", VFloat 3 (-1), 3)]).
    reflexivity.
Defined.

(** X7 on an asynchronous reporter with one buffered event. *)
Lemma flush_leaves_nothing_behind_witness :
  let r := with_events [ScalarEvent (VStr "loss") (VStr "train")
                          (VFloat 5 (-1)) 1]
             (__init__ healthy 10 true) in
  _events (snd (flush r)) = [] /\ _async_results (snd (flush r)) = [] /\
  fst (get_num_results (snd (flush r))) = Ok 0.
Proof.
  cbv zeta.
  apply (proj1 (flush_leaves_nothing_behind
                  (with_events [ScalarEvent (VStr "loss") (VStr "train")
                                  (VFloat 5 (-1)) 1]
                     (__init__ healthy 10 true)))).
  reflexivity.
Defined.

(** X8 on a buffer of three events whose threshold was lowered to 2:
    the next report empties it. *)
Lemma report_leaves_buffer_below_threshold_witness :
  let ev := ScalarEvent (VStr "loss") (VStr "train") (VFloat 5 (-1)) 1 in
  let r := with_flush_threshold 2
             (with_events [ev; ev; ev] (__init__ healthy 10 false)) in
  let out := run (Report_scalar (VStr "loss") (VStr "train") (VFloat 4 (-1)) 2)
               r in
  _events (snd out) = [] \/
  Z.of_nat (List.length (_events (snd out))) < _flush_threshold (snd out).
Proof.
  cbv zeta.
  apply (report_leaves_buffer_below_threshold (Metrics := ScriptedMetrics));
    reflexivity.
Defined.

(** X11 on a [None] title: the image event is in the buffer, the call
    has raised. *)
Lemma image_plot_failure_keeps_the_image_event_witness :
  let r := __init__ healthy 10 false in
  let ev := ImageEvent None (VStr "s3://bucket") (Some "/tmp/a.png") VNone
              (VStr "img") 1 None in
  let out := report_image_plot_and_upload VNone (VStr "img") 1
               (Some "/tmp/a.png") None (VStr "s3://bucket") None r in
  snd out = snd (_report ev r) /\
  (exists e, fst out = Raise e) /\
  hd_error (calls_since r (snd out)) = Some (Call_report ev).
Proof.
  cbv zeta.
  apply (image_plot_failure_keeps_the_image_event (Metrics := ScriptedMetrics)
           (__init__ healthy 10 false) VNone (VStr "img") 1
           (Some "/tmp/a.png") None (VStr "s3://bucket") None VNone
           (VStr "img") (VNone, VStr "s3://bucket"));
    try reflexivity.
  left. eexists. reflexivity.
Defined.

(** X12 on the storage URI ["///"] without key prefix. *)
Lemma storage_uri_of_slashes_is_no_destination_witness :
  let r' := snd (setattr storage_uri (VStr "///") (__init__ healthy 10 false)) in
  report_image_and_upload (VStr "sample") (VStr "img") 1 (Some "/tmp/a.png")
    None VNone None r'
  = (Raise (ValueError "Upload configuration is required (use setup_upload())"),
     r').
Proof.
  cbv zeta.
  assert (P : storage_key_prefix (_metrics (__init__ healthy 10 false))
              = VStr EmptyString \/
              storage_key_prefix (_metrics (__init__ healthy 10 false)) = VNone
              /\ EmptyString = EmptyString)
    by (right; split; reflexivity).
  destruct (storage_uri_of_slashes_is_no_destination
              (Metrics := ScriptedMetrics)
              (__init__ healthy 10 false) "///" EmptyString P) as [_ H].
  apply H. split; reflexivity.
Defined.


(** X14 on two label lists: index 5 gives the last one, index 0 the
    first. *)
Lemma get_labels_past_the_end_uses_the_last_witness :
  get_labels (VList [VList [VStr "x"]; VList [VStr "y"]]) 5
  = VList [VStr "y"]
  /\ get_labels (VList [VList [VStr "x"]; VList [VStr "y"]]) 0
     = VList [VStr "x"].
Proof.
  split.
  - apply (proj2 (proj2 (proj2 get_labels_past_the_end_uses_the_last))
             [VList [VStr "x"]; VList [VStr "y"]] 5%nat).
    + discriminate.
    + cbn. lia.
  - apply (proj1 (proj2 (proj2 get_labels_past_the_end_uses_the_last))
             [VList [VStr "x"]; VList [VStr "y"]] 0%nat (VList [VStr "x"])).
    reflexivity.
Defined.

(** X15 on an id of two spaces. *)
Lemma normalize_id_strips_or_gives_none_witness :
  IdObjectBase.normalize_id (VStr "  ") = Ok (Some EmptyString).
Proof.
  apply (proj2 (proj2 normalize_id_strips_or_gives_none) "  ").
  - discriminate.
  - reflexivity.
Defined.

(** X16 on the id [" t1 "] with the backend up. *)
Lemma init_reloads_once_or_not_at_all_witness :
  IdObjectBase.__init__ (VStr " t1 ") 1%nat
  = (Ok tt, (IdObjectBase.mk (Some ("t1", 1%nat)) (Some "t1"), 2%nat)).
Proof.
  apply (proj2 (proj2 (init_reloads_once_or_not_at_all
                         (subclass := task_like))) " t1 " 1%nat).
  discriminate.
Defined.

(** A [KeyboardInterrupt] during the reload is not swallowed: it leaves
    the constructor. *)
Example init_lets_keyboard_interrupt_through :
  IdObjectBase.__init__ (VStr "m1") tt
  = (Raise (Foreign "KeyboardInterrupt"),
     (IdObjectBase.mk None (Some "m1"), tt)).
Proof. reflexivity. Qed.

(** X17 on a new id while the backend is down: the data of the old id
    stay cached. *)
Lemma set_id_reloads_only_for_a_new_id_witness :
  IdObjectBase.set_id (Some "t2")
    (IdObjectBase.mk (Some ("t1", 1%nat)) (Some "t1"), 0%nat)
  = (Ok tt, (IdObjectBase.mk (Some ("t1", 1%nat)) (Some "t2"), 1%nat)).
Proof.
  apply (proj1 (proj2 (proj2 (set_id_reloads_only_for_a_new_id
                                (subclass := task_like)
                                (IdObjectBase.mk (Some ("t1", 1%nat))
                                   (Some "t1")) 0%nat))) "t2");
    discriminate.
Defined.

(** X18 on an object without cached data, the backend up. *)
Lemma data_is_cached_once_found_witness :
  let st := (IdObjectBase.mk None (Some "t1"), 1%nat) in
  IdObjectBase.data (snd (IdObjectBase.data st))
  = (Ok (Some ("t1", 1%nat)), snd (IdObjectBase.data st)).
Proof.
  cbv zeta.
  apply (proj1 (data_is_cached_once_found (subclass := task_like)
                  (IdObjectBase.mk None (Some "t1"), 1%nat))).
  reflexivity.
Defined.


End MoreRuns.
